(** * Light HAL (android.hardware.light@2.0) for the Motorola sm6150 boards

    A shallow embedding of [light/Light.cpp]: the translation of a logical
    light request (type + [LightState]) into writes on the sysfs attributes
    of the three moto LEDs and of the panel backlight. *)

From Stdlib Require Import ZArith List String Ascii Bool Lia.
Import ListNotations.

Local Open Scope string_scope.
Local Open Scope Z_scope.

(** ** Machine integers

    The source computes on [uint32_t] and [int] / [int32_t].  Values are
    carried as [Z]; every arithmetic result is reduced explicitly. *)

Definition wrap_u32 (z : Z) : Z := z mod 2 ^ 32.

Definition wrap_i32 (z : Z) : Z := (z + 2 ^ 31) mod 2 ^ 32 - 2 ^ 31.

(** ** Interface types *)

(** Modelled from the spec: the enum [Type] is declared by the HIDL interface
    (types.hal), which is not among the sources.  The spec names the four
    light types this service supports (Backlight, Battery, Notifications,
    Attention) and speaks of values outside the supported set; the other
    constructors are the remaining light types of the interface. *)
Inductive LightType : Set :=
| BACKLIGHT | KEYBOARD | BUTTONS | BATTERY
| NOTIFICATIONS | ATTENTION | BLUETOOTH | WIFI.

(** The value underlying each enumerator; [std::map<Type, _>] orders its keys
    by it. *)
Definition type_code (t : LightType) : Z :=
  match t with
  | BACKLIGHT => 0 | KEYBOARD => 1 | BUTTONS => 2 | BATTERY => 3
  | NOTIFICATIONS => 4 | ATTENTION => 5 | BLUETOOTH => 6 | WIFI => 7
  end.

(** Modelled from the spec: the enum [Flash] (types.hal, not among the
    sources); the spec gives None / Timed / Hardware. *)
Inductive Flash : Set := NONE | TIMED | HARDWARE.

Definition Flash_eq_dec (a b : Flash) : {a = b} + {a <> b}.
Proof. decide equality. Defined.

(** Modelled from the spec: the brightness mode carried by a request, which
    this service accepts and ignores. *)
Inductive Brightness : Set := USER | SENSOR | LOW_PERSISTENCE.

(** Modelled from the spec: the result of [setLight] is Success or
    "light type not supported". *)
Inductive Status : Set := SUCCESS | LIGHT_NOT_SUPPORTED.

(** Modelled from the spec: [LightState] (types.hal, not among the sources):
    a 32-bit packed colour 0xAARRGGBB, a flash mode, the on and off
    durations in milliseconds ([int32_t]) and the brightness mode. *)
Record LightState : Set := mkLightState {
  color : Z;
  flashMode : Flash;
  flashOnMs : Z;
  flashOffMs : Z;
  brightnessMode : Brightness
}.

(** ** Attribute paths *)

Definition LEDS : string := "/sys/class/leds/".
Definition LCD_LED : string := "/sys/class/backlight/panel0-backlight/".

Definition BLUE_LED : string := LEDS ++ "blue_moto/".
Definition CHARGING_LED : string := LEDS ++ "charging/".
Definition GREEN_LED : string := LEDS ++ "green_moto/".
Definition RED_LED : string := LEDS ++ "red_moto/".

Definition BREATH : string := "breath".
Definition BREATH_PATTERN : string := "breath_pattern".
Definition BRIGHTNESS : string := "brightness".
Definition MAX_BRIGHTNESS : string := "max_brightness".

(** ** The world the handlers act on

    The service keeps no state of its own; its effects are the values
    streamed into sysfs attributes, the integers parsed out of them, and the
    debug log.  An attribute write is recorded as it is issued. *)

(** What is streamed into the file: [set] is a template, instantiated in this
    file at [int] and at [std::string]. *)
Inductive Value : Set :=
| VInt (n : Z)
| VStr (s : string).

(** One call of [set].  [wvalue] is [None] for a call that names the path
    and passes no value. *)
Record Write : Set := mkWrite {
  wpath : string;
  wvalue : option Value
}.

Record World : Type := mkWorld {
  attr_int : string -> option Z;   (* [file >> result] on the attribute, [None] when it fails *)
  written : list Write;            (* the calls of [set], oldest first *)
  logged : list string             (* LOG(DEBUG) lines, oldest first *)
}.

Definition IO (A : Type) : Type := World -> A * World.

Definition ret {A} (a : A) : IO A := fun w => (a, w).

Definition bind {A B} (m : IO A) (f : A -> IO B) : IO B :=
  fun w => let (a, w') := m w in f a w'.

Declare Scope io_scope.
Delimit Scope io_scope with io.
Notation "x <- m ;; k" := (bind m (fun x => k))
  (at level 61, m at next level, right associativity) : io_scope.
Notation "m ;; k" := (bind m (fun _ => k))
  (at level 61, right associativity) : io_scope.
Local Open Scope io_scope.

Definition emit (x : Write) : IO unit :=
  fun w => (tt, mkWorld (attr_int w) (written w ++ [x]) (logged w)).

(** [set(path, value)]: write value to path and close file. *)
Definition set (path : string) (value : Value) : IO unit :=
  emit (mkWrite path (Some value)).

(** [set(path)]: the call as the Backlight handler makes it, with the path
    alone. *)
Definition set_path_only (path : string) : IO unit :=
  emit (mkWrite path None).

(** [get(path, def)] at [int]: read from path, [def] in case of any
    failure. *)
Definition get (path : string) (def : Z) : IO Z :=
  fun w => (match attr_int w path with Some r => r | None => def end, w).

Definition log_debug (line : string) : IO unit :=
  fun w => (tt, mkWorld (attr_int w) (written w) (logged w ++ [line])).

(** The attribute writes a computation adds to the world it starts from. *)
Definition performed {A} (m : IO A) (w : World) : list Write :=
  skipn (List.length (written w)) (written (snd (m w))).

(** ** Decimal output *)

Definition digit_char (d : Z) : ascii :=
  ascii_of_nat (48 + Z.to_nat d).

(** The digits of [n], most significant first, prepended to [acc]; [fuel]
    bounds the number of digits produced. *)
Fixpoint dec_digits (fuel : nat) (n : Z) (acc : string) : string :=
  match fuel with
  | O => acc
  | S f =>
      let acc' := String (digit_char (n mod 10)) acc in
      if n / 10 =? 0 then acc' else dec_digits f (n / 10) acc'
  end.

(** [%d] applied to an [int]: at most ten digits and a sign. *)
Definition fmt_d (n : Z) : string :=
  if n <? 0 then String "-"%char (dec_digits 10 (- n) EmptyString) else dec_digits 10 n EmptyString.

Fixpoint string_take (n : nat) (s : string) : string :=
  match n, s with
  | S k, String c r => String c (string_take k r)
  | _, _ => EmptyString
  end.

Definition newline : string := String (ascii_of_nat 10) EmptyString.

(** ** Breath pattern *)

(** The text [snprintf] would produce with room for all of it:
    rise_time hold_time fall_time off_time.  The arguments are [uint32_t]
    and are printed with [%d]. *)
Definition breath_pattern_text (pauseHi pauseLo : Z) : string :=
  fmt_d (wrap_i32 pauseLo) ++ " " ++ fmt_d (wrap_i32 pauseHi) ++ " " ++
  fmt_d (wrap_i32 pauseLo) ++ " " ++ fmt_d (wrap_i32 pauseHi) ++ newline.

(** [snprintf(buffer, sizeof(buffer), ...)] with [char buffer[40]] keeps at
    most 39 characters before the terminator. *)
Definition getBreathPatternValue (pauseHi pauseLo : Z) : string :=
  string_take (40 - 1) (breath_pattern_text pauseHi pauseLo).

(** ** Brightness of a colour *)

Definition kDefaultMaxBrightness : Z := 255.

Definition rgbToBrightness (state : LightState) : Z :=
  let color := Z.land (color state) 0x00ffffff in
  Z.shiftr
    (wrap_u32
       (wrap_u32
          (wrap_u32 (77 * Z.land (Z.shiftr color 16) 0xff) +
           wrap_u32 (150 * Z.land (Z.shiftr color 8) 0xff)) +
        wrap_u32 (29 * Z.land color 0xff)))
    8.

(** Modelled from the spec: [Light::rgbToBrightness], the name the Battery
    handler calls, would be declared in Light.h, which is not among the
    sources.  The spec says the Battery handler "computes the same luma value
    from the color" as the Backlight handler. *)
Definition Light_rgbToBrightness (state : LightState) : Z :=
  rgbToBrightness state.

(** ** Handlers *)

(** The locals [brightness] and [sentBrightness] of the Backlight handler,
    for a value [maxRead] returned by [get]. *)
Definition backlight_sent (state : LightState) : Z :=
  wrap_i32 (rgbToBrightness state).

(** [sentBrightness * maxBrightness / kDefaultMaxBrightness] on [int]: the
    product is reduced to 32 bits and the division truncates. *)
Definition backlight_brightness (maxRead : Z) (state : LightState) : Z :=
  let maxBrightness := if maxRead <? 0 then kDefaultMaxBrightness else maxRead in
  Z.quot (wrap_i32 (backlight_sent state * maxBrightness)) kDefaultMaxBrightness.

Definition handleBacklight (state : LightState) : IO unit :=
  maxRead <- get (LCD_LED ++ MAX_BRIGHTNESS) (-1) ;;
  let sentBrightness := backlight_sent state in
  let brightness := backlight_brightness maxRead state in
  log_debug ("Writing backlight brightness " ++ fmt_d brightness ++
             " (orig " ++ fmt_d sentBrightness ++ ")") ;;
  set_path_only (LCD_LED ++ BRIGHTNESS).

Definition handleBattery (state : LightState) : IO unit :=
  let brightness := wrap_i32 (Light_rgbToBrightness state) in
  set (RED_LED ++ BREATH) (VInt (if brightness =? 0 then 0 else 1)) ;;
  set (RED_LED ++ BRIGHTNESS) (VInt brightness) ;;
  set (GREEN_LED ++ BREATH) (VInt (if brightness =? 0 then 0 else 1)) ;;
  set (GREEN_LED ++ BRIGHTNESS) (VInt brightness) ;;
  set (BLUE_LED ++ BREATH) (VInt (if brightness =? 0 then 0 else 1)) ;;
  set (BLUE_LED ++ BRIGHTNESS) (VInt brightness).

(** The locals [redBrightness], [greenBrightness], [blueBrightness] of the
    Notification handler once the alpha byte has been applied: extract
    brightness from AARRGGBB, scale RGB if the alpha is not 0xFF. *)
Definition scaled_channels (color : Z) : Z * Z * Z :=
  let redBrightness := Z.land (Z.shiftr color 16) 0xFF in
  let greenBrightness := Z.land (Z.shiftr color 8) 0xFF in
  let blueBrightness := Z.land color 0xFF in
  let brightness := Z.land (Z.shiftr color 24) 0xFF in
  if negb (brightness =? 0xFF) then
    (wrap_u32 (redBrightness * brightness) / 0xFF,
     wrap_u32 (greenBrightness * brightness) / 0xFF,
     wrap_u32 (blueBrightness * brightness) / 0xFF)
  else (redBrightness, greenBrightness, blueBrightness).

(** [redBrightness > 0 || greenBrightness > 0 || blueBrightness > 0] *)
Definition any_channel_on (color : Z) : bool :=
  let '(redBrightness, greenBrightness, blueBrightness) := scaled_channels color in
  (redBrightness >? 0) || (greenBrightness >? 0) || (blueBrightness >? 0).

Definition handleNotification (state : LightState) : IO unit :=
  (* Disable breathing. *)
  set (RED_LED ++ BREATH) (VInt 0) ;;
  set (RED_LED ++ BRIGHTNESS) (VInt 0) ;;
  set (GREEN_LED ++ BREATH) (VInt 0) ;;
  set (GREEN_LED ++ BRIGHTNESS) (VInt 0) ;;
  set (BLUE_LED ++ BREATH) (VInt 0) ;;
  set (BLUE_LED ++ BRIGHTNESS) (VInt 0) ;;
  match flashMode state with
  | TIMED =>
      let pauseHi := flashOnMs state in
      let pauseLo := flashOffMs state in
      let breath := if (pauseHi >? 0) && (pauseLo >? 0) then 1 else 0 in
      (* Enable breathing if times are higher than 0. *)
      if negb (breath =? 0) then
        if any_channel_on (color state) then
          set (RED_LED ++ BREATH_PATTERN)
              (VStr (getBreathPatternValue (wrap_u32 pauseHi) (wrap_u32 pauseLo))) ;;
          set (RED_LED ++ BREATH) (VInt 1) ;;
          set (RED_LED ++ BRIGHTNESS) (VInt kDefaultMaxBrightness) ;;
          set (GREEN_LED ++ BREATH_PATTERN)
              (VStr (getBreathPatternValue (wrap_u32 pauseHi) (wrap_u32 pauseLo))) ;;
          set (GREEN_LED ++ BREATH) (VInt 1) ;;
          set (GREEN_LED ++ BRIGHTNESS) (VInt kDefaultMaxBrightness) ;;
          set (BLUE_LED ++ BREATH_PATTERN)
              (VStr (getBreathPatternValue (wrap_u32 pauseHi) (wrap_u32 pauseLo))) ;;
          set (BLUE_LED ++ BREATH) (VInt 1) ;;
          set (BLUE_LED ++ BRIGHTNESS) (VInt kDefaultMaxBrightness)
        else ret tt
      else ret tt
  | _ =>
      if any_channel_on (color state) then
        set (RED_LED ++ BRIGHTNESS) (VInt kDefaultMaxBrightness) ;;
        set (GREEN_LED ++ BRIGHTNESS) (VInt kDefaultMaxBrightness) ;;
        set (BLUE_LED ++ BRIGHTNESS) (VInt kDefaultMaxBrightness)
      else
        set (RED_LED ++ BRIGHTNESS) (VInt 0) ;;
        set (GREEN_LED ++ BRIGHTNESS) (VInt 0) ;;
        set (BLUE_LED ++ BRIGHTNESS) (VInt 0)
  end.

(** ** Dispatch table *)

Definition Handler : Type := LightState -> IO unit.

(** [std::map<Type, std::function<void(const LightState&)>>]: the entries
    are kept ordered by key; inserting a key already present changes
    nothing. *)
Definition LightMap : Type := list (LightType * Handler).

Definition type_lt (a b : LightType) : bool := type_code a <? type_code b.

Fixpoint map_insert (k : LightType) (h : Handler) (m : LightMap) : LightMap :=
  match m with
  | [] => [(k, h)]
  | (k', h') :: r =>
      if type_lt k k' then (k, h) :: m
      else if type_lt k' k then (k', h') :: map_insert k h r
      else m
  end.

Fixpoint map_find (k : LightType) (m : LightMap) : option Handler :=
  match m with
  | [] => None
  | (k', h') :: r =>
      if type_lt k k' then None
      else if type_lt k' k then map_find k r
      else Some h'
  end.

Definition map_of_list (l : list (LightType * Handler)) : LightMap :=
  fold_left (fun m kv => map_insert (fst kv) (snd kv) m) l [].

Definition lights : LightMap :=
  map_of_list
    [ (BACKLIGHT, handleBacklight);
      (BATTERY, handleBattery);
      (NOTIFICATIONS, handleNotification);
      (ATTENTION, handleNotification) ].

(** ** The service *)

Definition setLight (type : LightType) (state : LightState) : IO Status :=
  match map_find type lights with
  | None => ret LIGHT_NOT_SUPPORTED
  | Some handler =>
      (* Lock global mutex until light state is updated. *)
      handler state ;;
      ret SUCCESS
  end.

Definition getSupportedTypes (_hidl_cb : list LightType -> IO unit) : IO unit :=
  let types : list LightType :=
    fold_left (fun types light => (types ++ [fst light])%list) lights [] in
  _hidl_cb types.

(** A history of [setLight] calls, run one after the other. *)
Fixpoint run_calls (calls : list (LightType * LightState)) : IO (list Status) :=
  match calls with
  | [] => ret []
  | (type, state) :: rest =>
      s <- setLight type state ;;
      ss <- run_calls rest ;;
      ret (s :: ss)
  end.

(** The four light types the specification lists as supported. *)
Definition supported (type : LightType) : bool :=
  match type with
  | BACKLIGHT | BATTERY | NOTIFICATIONS | ATTENTION => true
  | _ => false
  end.

(** * Vocabulary of the properties *)

(** A write of an integer, or of a text, to attribute [attr] of [led]. *)
Definition wr_int (led attr : string) (n : Z) : Write :=
  mkWrite (led ++ attr) (Some (VInt n)).

Definition wr_str (led attr : string) (s : string) : Write :=
  mkWrite (led ++ attr) (Some (VStr s)).

(** [emits m l]: from any world, [m] adds exactly the writes [l]. *)
Definition emits {A} (m : IO A) (l : list Write) : Prop :=
  forall w, written (snd (m w)) = (written w ++ l)%list.

(** A channel byte dimmed by the alpha byte, as the spec words it: if alpha
    is not 0xFF, channel * alpha / 0xFF. *)
Definition alpha_scaled (alpha channel : Z) : Z :=
  if alpha =? 0xFF then channel else channel * alpha / 0xFF.

(** The reset every Notification request starts with. *)
Definition disable_breathing : list Write :=
  [ wr_int RED_LED BREATH 0; wr_int RED_LED BRIGHTNESS 0;
    wr_int GREEN_LED BREATH 0; wr_int GREEN_LED BRIGHTNESS 0;
    wr_int BLUE_LED BREATH 0; wr_int BLUE_LED BRIGHTNESS 0 ].

(** Reading decimal text back. *)
Definition digit_value (c : ascii) : Z := Z.of_nat (nat_of_ascii c) - 48.

Fixpoint dec_value (s : string) (acc : Z) : Z :=
  match s with
  | EmptyString => acc
  | String c r => dec_value r (10 * acc + digit_value c)
  end.

(** The text the specification gives: "<flashOffMs> <flashOnMs> <flashOffMs>
    <flashOnMs>" and a newline. *)
Definition claimed_pattern (onMs offMs : Z) : string :=
  fmt_d offMs ++ " " ++ fmt_d onMs ++ " " ++
  fmt_d offMs ++ " " ++ fmt_d onMs ++ newline.

(** A Timed request whose durations have nine digits each. *)
Definition long_flash : LightState :=
  mkLightState 0xFFFFFFFF TIMED 100000000 100000000 USER.

(** A world in which no attribute can be read and nothing was written. *)
Definition idle_world : World := mkWorld (fun _ => None) [] [].

(** A request that turns the notification LED off. *)
Definition lights_off : LightState := mkLightState 0 NONE 0 0 USER.

(** A panel whose [max_brightness] attribute reads 128. *)
Definition half_range_panel : World :=
  mkWorld (fun path =>
             if String.eqb path (LCD_LED ++ MAX_BRIGHTNESS) then Some 128
             else None)
          [] [].

(** Full white, alpha 0. *)
Definition white : LightState := mkLightState 0x00FFFFFF NONE 0 0 USER.

(** ** Concurrent calls

    The binder threads of the service may enter [setLight] at the same time.
    Each thread makes one call and is followed through the statements of
    [setLight]; a schedule says which thread moves next.  [calls i] is the
    call thread [i] makes and [sysfs] what the attributes read as. *)

(** Where a thread stands in [setLight]. *)
Inductive Pc : Type :=
| AtFind                          (* about to look the type up *)
| AtLock (handler : Handler)      (* about to take the lock_guard *)
| InHandler (todo : list Write)   (* in the handler, these writes to come *)
| Returned (status : Status).

(** Modelled from the spec: [globalLock] is declared in Light.h, which is
    not among the sources; the spec describes one process-wide exclusive
    lock guarding every handler invocation.  [globalLock] holds the thread
    that owns the mutex. *)
Record System : Type := mkSystem {
  pcs : nat -> Pc;
  globalLock : option nat;
  events : list (nat * Write)     (* the writes as they reach sysfs, oldest first *)
}.

Definition set_pc (i : nat) (pc : Pc) (f : nat -> Pc) : nat -> Pc :=
  fun k => if Nat.eqb k i then pc else f k.

(** The writes of the handler of thread [i], in program order. *)
Definition handler_writes (calls : nat -> LightType * LightState)
    (sysfs : string -> option Z) (handler : Handler) (i : nat) : list Write :=
  performed (handler (snd (calls i))) (mkWorld sysfs [] []).

(** One move of thread [i].  A thread that finds the mutex taken stays
    where it is. *)
Definition thread_step (calls : nat -> LightType * LightState)
    (sysfs : string -> option Z) (i : nat) (s : System) : System :=
  match pcs s i with
  | AtFind =>
      match map_find (fst (calls i)) lights with
      | None =>
          mkSystem (set_pc i (Returned LIGHT_NOT_SUPPORTED) (pcs s))
                   (globalLock s) (events s)
      | Some handler =>
          mkSystem (set_pc i (AtLock handler) (pcs s))
                   (globalLock s) (events s)
      end
  | AtLock handler =>
      match globalLock s with
      | None =>
          mkSystem
            (set_pc i (InHandler (handler_writes calls sysfs handler i)) (pcs s))
            (Some i) (events s)
      | Some _ => s
      end
  | InHandler (x :: todo) =>
      mkSystem (set_pc i (InHandler todo) (pcs s))
               (globalLock s) (events s ++ [(i, x)])
  | InHandler [] =>
      mkSystem (set_pc i (Returned SUCCESS) (pcs s)) None (events s)
  | Returned _ => s
  end.

Definition run (calls : nat -> LightType * LightState)
    (sysfs : string -> option Z) (schedule : list nat) (s : System) : System :=
  fold_left (fun s i => thread_step calls sysfs i s) schedule s.

Definition init : System := mkSystem (fun _ => AtFind) None [].

(** All the writes the call of thread [i] makes when run on its own. *)
Definition call_writes (calls : nat -> LightType * LightState)
    (sysfs : string -> option Z) (i : nat) : list Write :=
  performed (setLight (fst (calls i)) (snd (calls i))) (mkWorld sysfs [] []).

Definition tids (ev : list (nat * Write)) : list nat := List.map fst ev.

Definition writes_of (i : nat) (ev : list (nat * Write)) : list Write :=
  List.map snd (List.filter (fun e => Nat.eqb (fst e) i) ev).

(** Thread ids come in blocks: a thread that shows up again is the one
    that came last. *)
Inductive grouped : list nat -> Prop :=
| grouped_nil : grouped []
| grouped_snoc (l : list nat) (i : nat) :
    grouped l -> (In i l -> exists l', l = (l' ++ [i])%list) ->
    grouped (l ++ [i]).

(** What holds of every state the threads can reach. *)
Record Inv (calls : nat -> LightType * LightState)
    (sysfs : string -> option Z) (s : System) : Prop := mkInv {
  inv_pc : forall i,
    match pcs s i with
    | AtFind => ~ In i (tids (events s))
    | AtLock handler =>
        ~ In i (tids (events s)) /\
        map_find (fst (calls i)) lights = Some handler
    | InHandler todo =>
        globalLock s = Some i /\
        (writes_of i (events s) ++ todo)%list = call_writes calls sysfs i /\
        (In i (tids (events s)) ->
         exists l', tids (events s) = (l' ++ [i])%list)
    | Returned _ => writes_of i (events s) = call_writes calls sysfs i
    end;
  inv_grouped : grouped (tids (events s))
}.

(** Two binder threads: thread 0 reports the battery, every other thread
    switches the notification LED off. *)
Definition two_calls (i : nat) : LightType * LightState :=
  if Nat.eqb i 0 then (BATTERY, white) else (NOTIFICATIONS, lights_off).

(** Thread 1 looks its handler up first and then has to wait for thread 0,
    which takes the mutex before it. *)
Definition contended_schedule : list nat :=
  [1; 0; 0; 1; 0; 0; 1; 0; 0; 0; 0; 1; 0; 1; 1; 1]%nat.

(** ** What a call leaves behind *)

(** Every attribute the handlers name in a call of [set]. *)
Definition written_attributes : list string :=
  [ LCD_LED ++ BRIGHTNESS;
    RED_LED ++ BREATH; RED_LED ++ BRIGHTNESS; RED_LED ++ BREATH_PATTERN;
    GREEN_LED ++ BREATH; GREEN_LED ++ BRIGHTNESS; GREEN_LED ++ BREATH_PATTERN;
    BLUE_LED ++ BREATH; BLUE_LED ++ BRIGHTNESS; BLUE_LED ++ BREATH_PATTERN ].

Definition path_known (x : Write) : bool :=
  existsb (String.eqb (wpath x)) written_attributes.

(** The value an attribute holds once the writes [ws] are done, oldest
    first: the one written to it last, [held] if none was. *)
Fixpoint last_written (path : string) (ws : list Write) (held : option Value)
  : option Value :=
  match ws with
  | [] => held
  | x :: rest =>
      last_written path rest
        (if String.eqb (wpath x) path then wvalue x else held)
  end.

(** The breath flag and the brightness of one LED once [ws] are done. *)
Definition led_state (led : string) (ws : list Write)
  : option Value * option Value :=
  (last_written (led ++ BREATH) ws None,
   last_written (led ++ BRIGHTNESS) ws None).

(** The line the Backlight handler logs for a computed [brightness] and a
    requested one. *)
Definition backlight_log_line (brightness sentBrightness : Z) : string :=
  "Writing backlight brightness " ++ fmt_d brightness ++
  " (orig " ++ fmt_d sentBrightness ++ ")".

(** * Properties *)

(** ** Arithmetic on the machine integers *)

Lemma wrap_u32_small (z : Z) : 0 <= z < 2 ^ 32 -> wrap_u32 z = z.
Proof. intros H. unfold wrap_u32. now apply Z.mod_small. Qed.

Lemma wrap_i32_small (z : Z) : - 2 ^ 31 <= z < 2 ^ 31 -> wrap_i32 z = z.
Proof.
  intros H. unfold wrap_i32.
  rewrite Z.mod_small by lia. lia.
Qed.

Lemma land_byte (x : Z) : Z.land x 0xff = x mod 2 ^ 8.
Proof. change 0xff with (Z.ones 8). apply Z.land_ones. lia. Qed.

Lemma land_rgb (x : Z) : Z.land x 0x00ffffff = x mod 2 ^ 24.
Proof. change 0x00ffffff with (Z.ones 24). apply Z.land_ones. lia. Qed.

Lemma byte_range (x : Z) : 0 <= Z.land x 0xff <= 255.
Proof.
  rewrite land_byte.
  pose proof (Z.mod_pos_bound x (2 ^ 8) ltac:(lia)). lia.
Qed.

(** The four bytes of a packed colour. *)
Lemma packed_bytes (c A R G B : Z) :
  0 <= A < 256 -> 0 <= R < 256 -> 0 <= G < 256 -> 0 <= B < 256 ->
  c = A * 2 ^ 24 + R * 2 ^ 16 + G * 2 ^ 8 + B ->
  Z.land (Z.shiftr c 24) 0xff = A /\
  Z.land (Z.shiftr c 16) 0xff = R /\
  Z.land (Z.shiftr c 8) 0xff = G /\
  Z.land c 0xff = B.
Proof.
  intros HA HR HG HB ->.
  rewrite !land_byte, !Z.shiftr_div_pow2 by lia.
  change (2 ^ 24) with 16777216. change (2 ^ 16) with 65536.
  change (2 ^ 8) with 256.
  repeat split; Z.div_mod_to_equations; lia.
Qed.

Lemma rgb_mask_bytes (c : Z) :
  Z.land (Z.shiftr (Z.land c 0x00ffffff) 16) 0xff = Z.land (Z.shiftr c 16) 0xff /\
  Z.land (Z.shiftr (Z.land c 0x00ffffff) 8) 0xff = Z.land (Z.shiftr c 8) 0xff /\
  Z.land (Z.land c 0x00ffffff) 0xff = Z.land c 0xff.
Proof.
  rewrite land_rgb, !land_byte, !Z.shiftr_div_pow2 by lia.
  change (2 ^ 24) with 16777216. change (2 ^ 16) with 65536.
  change (2 ^ 8) with 256.
  repeat split; Z.div_mod_to_equations; lia.
Qed.

(** The luma without the reductions modulo 2^32, none of which can fire. *)
Lemma rgbToBrightness_unwrapped (state : LightState) :
  rgbToBrightness state =
  (77 * Z.land (Z.shiftr (color state) 16) 0xff +
   150 * Z.land (Z.shiftr (color state) 8) 0xff +
   29 * Z.land (color state) 0xff) / 2 ^ 8.
Proof.
  unfold rgbToBrightness.
  destruct (rgb_mask_bytes (color state)) as (-> & -> & ->).
  pose proof (byte_range (Z.shiftr (color state) 16)).
  pose proof (byte_range (Z.shiftr (color state) 8)).
  pose proof (byte_range (color state)).
  rewrite (wrap_u32_small (77 * _)) by lia.
  rewrite (wrap_u32_small (150 * _)) by lia.
  rewrite (wrap_u32_small (29 * _)) by lia.
  rewrite (wrap_u32_small (77 * _ + _)) by lia.
  rewrite wrap_u32_small by lia.
  apply Z.shiftr_div_pow2. lia.
Qed.

Lemma rgbToBrightness_range (state : LightState) :
  0 <= rgbToBrightness state <= 255.
Proof.
  rewrite rgbToBrightness_unwrapped.
  pose proof (byte_range (Z.shiftr (color state) 16)).
  pose proof (byte_range (Z.shiftr (color state) 8)).
  pose proof (byte_range (color state)).
  change (2 ^ 8) with 256.
  Z.div_mod_to_equations; lia.
Qed.

(** C3: for a packed colour 0xAARRGGBB the luma is (77*R + 150*G + 29*B) >> 8;
    it always lies in [0, 255]; white gives 255 and pure red gives 76. *)
Theorem rgbToBrightness_luma :
  (forall state A R G B,
      0 <= A < 256 -> 0 <= R < 256 -> 0 <= G < 256 -> 0 <= B < 256 ->
      color state = A * 2 ^ 24 + R * 2 ^ 16 + G * 2 ^ 8 + B ->
      rgbToBrightness state = Z.shiftr (77 * R + 150 * G + 29 * B) 8) /\
  (forall state, 0 <= rgbToBrightness state <= 255) /\
  (forall fm on off bm,
      rgbToBrightness (mkLightState 0x00FFFFFF fm on off bm) = 255) /\
  (forall fm on off bm,
      rgbToBrightness (mkLightState 0x00FF0000 fm on off bm) = 76).
Proof.
  split; [| split; [| split]].
  - intros state A R G B HA HR HG HB Hc.
    rewrite rgbToBrightness_unwrapped.
    destruct (packed_bytes (color state) A R G B HA HR HG HB Hc)
      as (_ & -> & -> & ->).
    symmetry. apply Z.shiftr_div_pow2. lia.
  - apply rgbToBrightness_range.
  - reflexivity.
  - reflexivity.
Qed.

Lemma rgbToBrightness_luma_witness :
  rgbToBrightness (mkLightState 0x80FF0000 NONE 0 0 USER) =
  Z.shiftr (77 * 255 + 150 * 0 + 29 * 0) 8.
Proof.
  apply (proj1 rgbToBrightness_luma
           (mkLightState 0x80FF0000 NONE 0 0 USER) 0x80 255 0 0);
    try lia; reflexivity.
Defined.

(** ** Reading off the writes of a handler *)

Lemma skipn_length_app {A} (l r : list A) : skipn (List.length l) (l ++ r) = r.
Proof. induction l as [| a l IH]; simpl; auto. Qed.

Lemma emits_ret {A} (a : A) : emits (ret a) [].
Proof. intros w. cbn. now rewrite app_nil_r. Qed.

Lemma emits_set (path : string) (value : Value) :
  emits (set path value) [mkWrite path (Some value)].
Proof. intros w. reflexivity. Qed.

Lemma emits_set_path_only (path : string) :
  emits (set_path_only path) [mkWrite path None].
Proof. intros w. reflexivity. Qed.

Lemma emits_get (path : string) (def : Z) : emits (get path def) [].
Proof. intros w. cbn. now rewrite app_nil_r. Qed.

Lemma emits_log_debug (line : string) : emits (log_debug line) [].
Proof. intros w. cbn. now rewrite app_nil_r. Qed.

Lemma emits_bind {A B} (m : IO A) (f : A -> IO B) (l1 l2 : list Write) :
  emits m l1 -> (forall a, emits (f a) l2) -> emits (bind m f) (l1 ++ l2).
Proof.
  intros Hm Hf w. unfold bind.
  specialize (Hm w). destruct (m w) as [a w']. cbn in Hm.
  rewrite (Hf a w'), Hm. now rewrite app_assoc.
Qed.

Lemma performed_emits {A} (m : IO A) (w : World) (l l' : list Write) :
  emits m l' -> l' = l -> performed m w = l.
Proof.
  intros H <-. unfold performed. rewrite (H w). apply skipn_length_app.
Qed.

Ltac io_step :=
  lazymatch goal with
  | |- emits (bind _ _) _ => eapply emits_bind; [| intros ?; cbv beta]
  | |- emits (let _ := _ in _) _ => cbv zeta
  | |- emits (set _ _) _ => apply emits_set
  | |- emits (set_path_only _) _ => apply emits_set_path_only
  | |- emits (get _ _) _ => apply emits_get
  | |- emits (log_debug _) _ => apply emits_log_debug
  | |- emits (ret _) _ => apply emits_ret
  end.

(** Runs a handler whose branches have been decided down to its writes. *)
Ltac io_run := eapply performed_emits; [repeat io_step | reflexivity].

Lemma luma_as_int (state : LightState) :
  wrap_i32 (Light_rgbToBrightness state) = rgbToBrightness state.
Proof.
  unfold Light_rgbToBrightness.
  pose proof (rgbToBrightness_range state).
  apply wrap_i32_small. lia.
Qed.

(** C5: the Battery handler writes the same luma as the brightness of the
    red, green and blue LEDs, with breath 0 on each when the luma is 0 and
    breath 1 on each when it is positive. *)
Theorem handleBattery_writes (state : LightState) (w : World) :
  (rgbToBrightness state = 0 ->
   performed (handleBattery state) w =
   [ wr_int RED_LED BREATH 0; wr_int RED_LED BRIGHTNESS 0;
     wr_int GREEN_LED BREATH 0; wr_int GREEN_LED BRIGHTNESS 0;
     wr_int BLUE_LED BREATH 0; wr_int BLUE_LED BRIGHTNESS 0 ]) /\
  (rgbToBrightness state > 0 ->
   performed (handleBattery state) w =
   [ wr_int RED_LED BREATH 1; wr_int RED_LED BRIGHTNESS (rgbToBrightness state);
     wr_int GREEN_LED BREATH 1; wr_int GREEN_LED BRIGHTNESS (rgbToBrightness state);
     wr_int BLUE_LED BREATH 1; wr_int BLUE_LED BRIGHTNESS (rgbToBrightness state) ]).
Proof.
  split; intros Hl; unfold handleBattery; rewrite luma_as_int.
  - rewrite Hl. io_run.
  - destruct (Z.eqb_spec (rgbToBrightness state) 0) as [E | _]; [lia |].
    io_run.
Qed.

Lemma handleBattery_writes_witness :
  performed (handleBattery (mkLightState 0xFF000000 NONE 0 0 USER))
            (mkWorld (fun _ => None) [] []) =
  [ wr_int RED_LED BREATH 0; wr_int RED_LED BRIGHTNESS 0;
    wr_int GREEN_LED BREATH 0; wr_int GREEN_LED BRIGHTNESS 0;
    wr_int BLUE_LED BREATH 0; wr_int BLUE_LED BRIGHTNESS 0 ] /\
  performed (handleBattery (mkLightState 0x00FFFFFF NONE 0 0 USER))
            (mkWorld (fun _ => None) [] []) =
  [ wr_int RED_LED BREATH 1; wr_int RED_LED BRIGHTNESS 255;
    wr_int GREEN_LED BREATH 1; wr_int GREEN_LED BRIGHTNESS 255;
    wr_int BLUE_LED BREATH 1; wr_int BLUE_LED BRIGHTNESS 255 ].
Proof.
  split.
  - apply (proj1 (handleBattery_writes _ _)). reflexivity.
  - apply (proj2 (handleBattery_writes
                    (mkLightState 0x00FFFFFF NONE 0 0 USER) _)). reflexivity.
Defined.

(** ** The Notification handler *)

Lemma scaled_channels_bytes (c A R G B : Z) :
  0 <= A < 256 -> 0 <= R < 256 -> 0 <= G < 256 -> 0 <= B < 256 ->
  c = A * 2 ^ 24 + R * 2 ^ 16 + G * 2 ^ 8 + B ->
  scaled_channels c = (alpha_scaled A R, alpha_scaled A G, alpha_scaled A B).
Proof.
  intros HA HR HG HB Hc.
  destruct (packed_bytes c A R G B HA HR HG HB Hc) as (EA & ER & EG & EB).
  unfold scaled_channels, alpha_scaled.
  rewrite EA, ER, EG, EB.
  destruct (A =? 0xFF); cbn [negb]; [reflexivity |].
  rewrite !wrap_u32_small by nia. reflexivity.
Qed.

Lemma any_channel_on_bytes (c A R G B : Z) :
  0 <= A < 256 -> 0 <= R < 256 -> 0 <= G < 256 -> 0 <= B < 256 ->
  c = A * 2 ^ 24 + R * 2 ^ 16 + G * 2 ^ 8 + B ->
  any_channel_on c =
  (alpha_scaled A R >? 0) || (alpha_scaled A G >? 0) || (alpha_scaled A B >? 0).
Proof.
  intros HA HR HG HB Hc. unfold any_channel_on.
  now rewrite (scaled_channels_bytes c A R G B).
Qed.

Lemma any_channel_on_true (c A R G B : Z) :
  0 <= A < 256 -> 0 <= R < 256 -> 0 <= G < 256 -> 0 <= B < 256 ->
  c = A * 2 ^ 24 + R * 2 ^ 16 + G * 2 ^ 8 + B ->
  alpha_scaled A R > 0 \/ alpha_scaled A G > 0 \/ alpha_scaled A B > 0 ->
  any_channel_on c = true.
Proof.
  intros HA HR HG HB Hc H.
  rewrite (any_channel_on_bytes c A R G B) by assumption.
  rewrite !orb_true_iff, !Z.gtb_gt. lia.
Qed.

Lemma any_channel_on_false (c A R G B : Z) :
  0 <= A < 256 -> 0 <= R < 256 -> 0 <= G < 256 -> 0 <= B < 256 ->
  c = A * 2 ^ 24 + R * 2 ^ 16 + G * 2 ^ 8 + B ->
  alpha_scaled A R = 0 -> alpha_scaled A G = 0 -> alpha_scaled A B = 0 ->
  any_channel_on c = false.
Proof.
  intros HA HR HG HB Hc E1 E2 E3.
  rewrite (any_channel_on_bytes c A R G B) by assumption.
  now rewrite E1, E2, E3.
Qed.

Lemma handleNotification_solid (state : LightState) (w : World) :
  flashMode state <> TIMED ->
  performed (handleNotification state) w =
  (disable_breathing ++
   if any_channel_on (color state)
   then [ wr_int RED_LED BRIGHTNESS 255; wr_int GREEN_LED BRIGHTNESS 255;
          wr_int BLUE_LED BRIGHTNESS 255 ]
   else [ wr_int RED_LED BRIGHTNESS 0; wr_int GREEN_LED BRIGHTNESS 0;
          wr_int BLUE_LED BRIGHTNESS 0 ])%list.
Proof.
  intros Hm. unfold handleNotification.
  destruct (flashMode state); try congruence;
    destruct (any_channel_on (color state)); io_run.
Qed.

(** C6: when the flash mode is not Timed, the Notification handler first
    clears the three channels (breath 0, brightness 0); then, if some
    alpha-scaled channel is positive, it sets the three brightnesses to 255
    and writes no breath again; if all three are 0, it sets the three
    brightnesses to 0. *)
Theorem handleNotification_not_timed (state : LightState) (w : World)
    (A R G B : Z) :
  0 <= A < 256 -> 0 <= R < 256 -> 0 <= G < 256 -> 0 <= B < 256 ->
  color state = A * 2 ^ 24 + R * 2 ^ 16 + G * 2 ^ 8 + B ->
  flashMode state <> TIMED ->
  (alpha_scaled A R > 0 \/ alpha_scaled A G > 0 \/ alpha_scaled A B > 0 ->
   performed (handleNotification state) w =
   [ wr_int RED_LED BREATH 0; wr_int RED_LED BRIGHTNESS 0;
     wr_int GREEN_LED BREATH 0; wr_int GREEN_LED BRIGHTNESS 0;
     wr_int BLUE_LED BREATH 0; wr_int BLUE_LED BRIGHTNESS 0;
     wr_int RED_LED BRIGHTNESS 255; wr_int GREEN_LED BRIGHTNESS 255;
     wr_int BLUE_LED BRIGHTNESS 255 ]) /\
  (alpha_scaled A R = 0 /\ alpha_scaled A G = 0 /\ alpha_scaled A B = 0 ->
   performed (handleNotification state) w =
   [ wr_int RED_LED BREATH 0; wr_int RED_LED BRIGHTNESS 0;
     wr_int GREEN_LED BREATH 0; wr_int GREEN_LED BRIGHTNESS 0;
     wr_int BLUE_LED BREATH 0; wr_int BLUE_LED BRIGHTNESS 0;
     wr_int RED_LED BRIGHTNESS 0; wr_int GREEN_LED BRIGHTNESS 0;
     wr_int BLUE_LED BRIGHTNESS 0 ]).
Proof.
  intros HA HR HG HB Hc Hm.
  rewrite (handleNotification_solid state w Hm).
  split.
  - intros Hon.
    now rewrite (any_channel_on_true (color state) A R G B).
  - intros (E1 & E2 & E3).
    now rewrite (any_channel_on_false (color state) A R G B).
Qed.

Lemma handleNotification_not_timed_witness :
  performed (handleNotification (mkLightState 0x80000002 HARDWARE 500 500 USER))
            (mkWorld (fun _ => None) [] []) =
  [ wr_int RED_LED BREATH 0; wr_int RED_LED BRIGHTNESS 0;
    wr_int GREEN_LED BREATH 0; wr_int GREEN_LED BRIGHTNESS 0;
    wr_int BLUE_LED BREATH 0; wr_int BLUE_LED BRIGHTNESS 0;
    wr_int RED_LED BRIGHTNESS 255; wr_int GREEN_LED BRIGHTNESS 255;
    wr_int BLUE_LED BRIGHTNESS 255 ] /\
  performed (handleNotification (mkLightState 0x80000001 NONE 0 0 USER))
            (mkWorld (fun _ => None) [] []) =
  [ wr_int RED_LED BREATH 0; wr_int RED_LED BRIGHTNESS 0;
    wr_int GREEN_LED BREATH 0; wr_int GREEN_LED BRIGHTNESS 0;
    wr_int BLUE_LED BREATH 0; wr_int BLUE_LED BRIGHTNESS 0;
    wr_int RED_LED BRIGHTNESS 0; wr_int GREEN_LED BRIGHTNESS 0;
    wr_int BLUE_LED BRIGHTNESS 0 ].
Proof.
  split.
  - apply (proj1 (handleNotification_not_timed
                    (mkLightState 0x80000002 HARDWARE 500 500 USER)
                    (mkWorld (fun _ => None) [] []) 0x80 0 0 2
                    ltac:(lia) ltac:(lia) ltac:(lia) ltac:(lia)
                    eq_refl ltac:(discriminate))).
    right. right. reflexivity.
  - apply (proj2 (handleNotification_not_timed
                    (mkLightState 0x80000001 NONE 0 0 USER)
                    (mkWorld (fun _ => None) [] []) 0x80 0 0 1
                    ltac:(lia) ltac:(lia) ltac:(lia) ltac:(lia)
                    eq_refl ltac:(discriminate))).
    repeat split.
Defined.

(** ** Decimal text and the 40-byte buffer *)

Lemma string_length_app (a b : string) :
  String.length (a ++ b) = (String.length a + String.length b)%nat.
Proof. induction a as [| c a IH]; cbn; [| rewrite IH]; reflexivity. Qed.

Lemma string_take_all (n : nat) (s : string) :
  (String.length s <= n)%nat -> string_take n s = s.
Proof.
  revert n. induction s as [| c s IH]; intros [| n] H; cbn in *;
    try reflexivity; try lia.
  rewrite IH by lia. reflexivity.
Qed.

Lemma string_take_length (n : nat) (s : string) :
  (String.length (string_take n s) <= n)%nat.
Proof.
  revert s. induction n as [| n IH]; intros [| c s]; cbn; try lia.
  specialize (IH s). lia.
Qed.

(** A number below 10^k prints with at most k digits. *)
Lemma dec_digits_length (fuel : nat) :
  forall (k : nat) (n : Z) (acc : string),
    (1 <= k <= fuel)%nat -> 0 <= n < 10 ^ Z.of_nat k ->
    (String.length (dec_digits fuel n acc) <= k + String.length acc)%nat.
Proof.
  induction fuel as [| f IH]; intros k n acc Hk Hn; [lia |].
  cbn [dec_digits].
  destruct (Z.eqb_spec (n / 10) 0) as [E | E]; cbn [String.length]; [lia |].
  destruct k as [| [| k]]; [lia | |].
  - exfalso. apply E. apply Z.div_small. cbn in Hn. lia.
  - specialize (IH (S k) (n / 10) (String (digit_char (n mod 10)) acc)).
    cbn [String.length] in IH.
    assert (Hd : 0 <= n / 10 < 10 ^ Z.of_nat (S k)).
    { replace (Z.of_nat (S (S k))) with (Z.of_nat (S k) + 1) in Hn by lia.
      rewrite Z.pow_add_r in Hn by lia. change (10 ^ 1) with 10 in Hn.
      split; [apply Z.div_pos; lia |].
      apply Z.div_lt_upper_bound; lia. }
    specialize (IH ltac:(lia) Hd). lia.
Qed.

Lemma fmt_d_length (n : Z) :
  0 <= n < 10 ^ 8 -> (String.length (fmt_d n) <= 8)%nat.
Proof.
  intros H. unfold fmt_d.
  destruct (Z.ltb_spec n 0) as [L | _]; [lia |].
  pose proof (dec_digits_length 10 8 n EmptyString ltac:(lia) H) as Hl.
  cbn [String.length] in Hl. lia.
Qed.

(** *** The printer is the decimal one: reading the text back gives the
    number. *)

Lemma digit_value_char (d : Z) : 0 <= d < 10 -> digit_value (digit_char d) = d.
Proof.
  intros H. unfold digit_value, digit_char.
  rewrite nat_ascii_embedding by lia. lia.
Qed.

Lemma dec_value_app (s t : string) (acc : Z) :
  dec_value (s ++ t) acc = dec_value t (dec_value s acc).
Proof. revert acc. induction s as [| c s IH]; intros acc; cbn; auto. Qed.

Lemma dec_digits_value (fuel : nat) :
  forall (n : Z) (acc : string),
    (1 <= fuel)%nat -> 0 <= n < 10 ^ Z.of_nat fuel ->
    exists ds : string,
      dec_digits fuel n acc = ds ++ acc /\
      forall a, dec_value ds a = a * 10 ^ Z.of_nat (String.length ds) + n.
Proof.
  induction fuel as [| f IH]; intros n acc Hf Hn; [lia |].
  cbn [dec_digits].
  pose proof (Z.mod_pos_bound n 10 ltac:(lia)) as Hd.
  pose proof (Z.div_mod n 10 ltac:(lia)) as Hdm.
  destruct (Z.eqb_spec (n / 10) 0) as [E | E].
  - exists (String (digit_char (n mod 10)) EmptyString). split; [reflexivity |].
    intros a. cbn [dec_value String.length].
    rewrite digit_value_char by lia. change (10 ^ Z.of_nat 1) with 10. lia.
  - assert (Hq : 0 <= n / 10 < 10 ^ Z.of_nat f).
    { replace (Z.of_nat (S f)) with (Z.of_nat f + 1) in Hn by lia.
      rewrite Z.pow_add_r in Hn by lia. change (10 ^ 1) with 10 in Hn.
      split; [apply Z.div_pos; lia | apply Z.div_lt_upper_bound; lia]. }
    assert (Hf' : (1 <= f)%nat).
    { destruct f; [| lia]. cbn in Hq. lia. }
    destruct (IH (n / 10) (String (digit_char (n mod 10)) acc) Hf' Hq)
      as (ds & Eds & Hv).
    exists (ds ++ String (digit_char (n mod 10)) EmptyString). split.
    + rewrite Eds. clear.
      induction ds as [| c ds IHds]; cbn [append];
        [reflexivity | now rewrite IHds].
    + intros a. rewrite dec_value_app, Hv. cbn [dec_value].
      rewrite digit_value_char by lia.
      rewrite string_length_app. cbn [String.length].
      replace (Z.of_nat (String.length ds + 1)) with (Z.of_nat (String.length ds) + 1) by lia.
      rewrite Z.pow_add_r by lia. lia.
Qed.

Lemma fmt_d_round_trip (n : Z) : 0 <= n < 2 ^ 31 -> dec_value (fmt_d n) 0 = n.
Proof.
  intros H. unfold fmt_d.
  destruct (Z.ltb_spec n 0) as [L | _]; [lia |].
  destruct (dec_digits_value 10 n EmptyString ltac:(lia) ltac:(lia)) as (ds & E & Hv).
  rewrite E, dec_value_app, Hv. reflexivity.
Qed.

Lemma claimed_pattern_fits (onMs offMs : Z) :
  0 <= onMs < 10 ^ 8 -> 0 <= offMs < 10 ^ 8 ->
  (String.length (claimed_pattern onMs offMs) <= 39)%nat.
Proof.
  intros Hon Hoff. unfold claimed_pattern.
  rewrite !string_length_app.
  pose proof (fmt_d_length onMs Hon). pose proof (fmt_d_length offMs Hoff).
  cbn [String.length newline]. lia.
Qed.

Lemma pause_round_trip (ms : Z) : 0 < ms < 2 ^ 31 -> wrap_i32 (wrap_u32 ms) = ms.
Proof.
  intros H. rewrite wrap_u32_small by lia. apply wrap_i32_small. lia.
Qed.

Lemma handleNotification_breathing (state : LightState) (w : World) :
  flashMode state = TIMED ->
  flashOnMs state > 0 -> flashOffMs state > 0 ->
  any_channel_on (color state) = true ->
  performed (handleNotification state) w =
  (disable_breathing ++
   let pattern := getBreathPatternValue (wrap_u32 (flashOnMs state))
                                        (wrap_u32 (flashOffMs state)) in
   [ wr_str RED_LED BREATH_PATTERN pattern;
     wr_int RED_LED BREATH 1; wr_int RED_LED BRIGHTNESS 255;
     wr_str GREEN_LED BREATH_PATTERN pattern;
     wr_int GREEN_LED BREATH 1; wr_int GREEN_LED BRIGHTNESS 255;
     wr_str BLUE_LED BREATH_PATTERN pattern;
     wr_int BLUE_LED BREATH 1; wr_int BLUE_LED BRIGHTNESS 255 ])%list.
Proof.
  intros Hm Hon Hoff Hany. unfold handleNotification.
  rewrite Hm, Hany.
  destruct (Z.gtb_spec (flashOnMs state) 0); [| lia].
  destruct (Z.gtb_spec (flashOffMs state) 0); [| lia].
  cbn [andb Z.eqb negb].
  generalize (getBreathPatternValue (wrap_u32 (flashOnMs state))
                                    (wrap_u32 (flashOffMs state))).
  intros pattern. io_run.
Qed.

(** X20: with flash mode Timed, both durations positive and below 10^8, and
    some alpha-scaled channel positive, the Notification handler, after the
    reset, writes "<flashOffMs> <flashOnMs> <flashOffMs> <flashOnMs>\n" to
    the pattern attribute of each channel, followed by breath 1 and
    brightness 255: with durations of at most eight digits the text fits the
    40-byte buffer. *)
Theorem handleNotification_timed_fits (state : LightState) (w : World)
    (A R G B : Z) :
  0 <= A < 256 -> 0 <= R < 256 -> 0 <= G < 256 -> 0 <= B < 256 ->
  color state = A * 2 ^ 24 + R * 2 ^ 16 + G * 2 ^ 8 + B ->
  flashMode state = TIMED ->
  0 < flashOnMs state < 10 ^ 8 -> 0 < flashOffMs state < 10 ^ 8 ->
  alpha_scaled A R > 0 \/ alpha_scaled A G > 0 \/ alpha_scaled A B > 0 ->
  performed (handleNotification state) w =
  [ wr_int RED_LED BREATH 0; wr_int RED_LED BRIGHTNESS 0;
    wr_int GREEN_LED BREATH 0; wr_int GREEN_LED BRIGHTNESS 0;
    wr_int BLUE_LED BREATH 0; wr_int BLUE_LED BRIGHTNESS 0;
    wr_str RED_LED BREATH_PATTERN
      (claimed_pattern (flashOnMs state) (flashOffMs state));
    wr_int RED_LED BREATH 1; wr_int RED_LED BRIGHTNESS 255;
    wr_str GREEN_LED BREATH_PATTERN
      (claimed_pattern (flashOnMs state) (flashOffMs state));
    wr_int GREEN_LED BREATH 1; wr_int GREEN_LED BRIGHTNESS 255;
    wr_str BLUE_LED BREATH_PATTERN
      (claimed_pattern (flashOnMs state) (flashOffMs state));
    wr_int BLUE_LED BREATH 1; wr_int BLUE_LED BRIGHTNESS 255 ].
Proof.
  intros HA HR HG HB Hc Hm Hon Hoff Hany.
  assert (Efit : getBreathPatternValue (wrap_u32 (flashOnMs state))
                                       (wrap_u32 (flashOffMs state)) =
                 claimed_pattern (flashOnMs state) (flashOffMs state)).
  { unfold getBreathPatternValue, breath_pattern_text.
    rewrite !pause_round_trip by lia.
    apply string_take_all. apply claimed_pattern_fits; lia. }
  rewrite handleNotification_breathing; try assumption; try lia.
  - cbv zeta. rewrite Efit. reflexivity.
  - now apply (any_channel_on_true (color state) A R G B).
Qed.

Lemma handleNotification_timed_fits_witness :
  performed (handleNotification (mkLightState 0xFF0000FF TIMED 500 500 USER))
            (mkWorld (fun _ => None) [] []) =
  [ wr_int RED_LED BREATH 0; wr_int RED_LED BRIGHTNESS 0;
    wr_int GREEN_LED BREATH 0; wr_int GREEN_LED BRIGHTNESS 0;
    wr_int BLUE_LED BREATH 0; wr_int BLUE_LED BRIGHTNESS 0;
    wr_str RED_LED BREATH_PATTERN ("500 500 500 500" ++ newline);
    wr_int RED_LED BREATH 1; wr_int RED_LED BRIGHTNESS 255;
    wr_str GREEN_LED BREATH_PATTERN ("500 500 500 500" ++ newline);
    wr_int GREEN_LED BREATH 1; wr_int GREEN_LED BRIGHTNESS 255;
    wr_str BLUE_LED BREATH_PATTERN ("500 500 500 500" ++ newline);
    wr_int BLUE_LED BREATH 1; wr_int BLUE_LED BRIGHTNESS 255 ].
Proof.
  apply (handleNotification_timed_fits
           (mkLightState 0xFF0000FF TIMED 500 500 USER)
           (mkWorld (fun _ => None) [] []) 0xFF 0 0 0xFF
           ltac:(lia) ltac:(lia) ltac:(lia) ltac:(lia)
           eq_refl eq_refl ltac:(cbn; lia) ltac:(cbn; lia)
           ltac:(right; right; reflexivity)).
Defined.

(** C4: on a Timed request with both durations 100000000 ms and a lit
    colour, the text "<flashOffMs> <flashOnMs> <flashOffMs> <flashOnMs>\n"
    has 40 characters and the 40-byte buffer of [getBreathPatternValue] keeps
    39 of them: the pattern written to the red LED lacks the newline, and
    the pattern the specification gives is not written. *)
Lemma handleNotification_timed_long_flash :
  flashMode long_flash = TIMED /\
  flashOnMs long_flash > 0 /\ flashOffMs long_flash > 0 /\
  alpha_scaled 0xFF 0xFF > 0 /\
  In (wr_str RED_LED BREATH_PATTERN "100000000 100000000 100000000 100000000")
     (performed (handleNotification long_flash) idle_world) /\
  ~ In (wr_str RED_LED BREATH_PATTERN
          (claimed_pattern (flashOnMs long_flash) (flashOffMs long_flash)))
       (performed (handleNotification long_flash) idle_world).
Proof.
  repeat split; try reflexivity.
  - vm_compute. do 6 right. left. reflexivity.
  - vm_compute. intros H.
    repeat (destruct H as [H | H]; [discriminate H |]). exact H.
Qed.

(** ** Dispatch *)

Lemma lights_entries :
  lights =
  [ (BACKLIGHT, handleBacklight); (BATTERY, handleBattery);
    (NOTIFICATIONS, handleNotification); (ATTENTION, handleNotification) ].
Proof. reflexivity. Qed.

Lemma lights_find (type : LightType) :
  map_find type lights =
  match type with
  | BACKLIGHT => Some handleBacklight
  | BATTERY => Some handleBattery
  | NOTIFICATIONS | ATTENTION => Some handleNotification
  | _ => None
  end.
Proof. destruct type; reflexivity. Qed.

Lemma performed_ret {A} (a : A) (w : World) : performed (ret a) w = [].
Proof. unfold performed, ret. cbn. apply skipn_all. Qed.

Lemma setLight_performed (type : LightType) (state : LightState) (w : World) :
  performed (setLight type state) w =
  match map_find type lights with
  | Some handler => performed (handler state) w
  | None => []
  end.
Proof.
  unfold setLight. destruct (map_find type lights) as [handler |].
  - unfold performed, bind, ret. destruct (handler state w). reflexivity.
  - apply performed_ret.
Qed.

(** C2: [setLight] returns Success for the four supported light types; for
    any other type it returns LightNotSupported and performs no attribute
    write (it leaves the world as it found it). *)
Theorem setLight_status (type : LightType) (state : LightState) (w : World) :
  (supported type = true -> fst (setLight type state w) = SUCCESS) /\
  (supported type = false ->
   fst (setLight type state w) = LIGHT_NOT_SUPPORTED /\
   performed (setLight type state) w = [] /\
   snd (setLight type state w) = w).
Proof.
  split; intros Hs.
  - unfold setLight. rewrite lights_find.
    destruct type; try discriminate Hs; unfold bind, ret;
      match goal with |- fst (let (_, _) := ?h state w in _) = _ =>
        destruct (h state w) end; reflexivity.
  - rewrite setLight_performed. unfold setLight. rewrite lights_find.
    destruct type; try discriminate Hs; repeat split.
Qed.

Lemma setLight_status_witness :
  fst (setLight ATTENTION long_flash idle_world) = SUCCESS /\
  fst (setLight WIFI long_flash idle_world) = LIGHT_NOT_SUPPORTED /\
  performed (setLight WIFI long_flash) idle_world = [] /\
  snd (setLight WIFI long_flash idle_world) = idle_world.
Proof.
  split.
  - apply (proj1 (setLight_status ATTENTION long_flash idle_world)).
    reflexivity.
  - apply (proj2 (setLight_status WIFI long_flash idle_world)).
    reflexivity.
Defined.

(** ** Number of writes *)

Lemma handleBacklight_performed (state : LightState) (w : World) :
  performed (handleBacklight state) w = [mkWrite (LCD_LED ++ BRIGHTNESS) None].
Proof. unfold handleBacklight. io_run. Qed.

Lemma handleBattery_performed (state : LightState) (w : World) :
  performed (handleBattery state) w =
  let brightness := wrap_i32 (Light_rgbToBrightness state) in
  let breath := if brightness =? 0 then 0 else 1 in
  [ wr_int RED_LED BREATH breath; wr_int RED_LED BRIGHTNESS brightness;
    wr_int GREEN_LED BREATH breath; wr_int GREEN_LED BRIGHTNESS brightness;
    wr_int BLUE_LED BREATH breath; wr_int BLUE_LED BRIGHTNESS brightness ].
Proof. unfold handleBattery. io_run. Qed.

Lemma handleNotification_no_breath (state : LightState) (w : World) :
  flashMode state = TIMED ->
  flashOnMs state <= 0 \/ flashOffMs state <= 0 \/
  any_channel_on (color state) = false ->
  performed (handleNotification state) w = disable_breathing.
Proof.
  intros Hm H. unfold handleNotification. rewrite Hm.
  destruct (Z.gtb_spec (flashOnMs state) 0);
    destruct (Z.gtb_spec (flashOffMs state) 0);
    destruct (any_channel_on (color state)) eqn:Hany;
    cbn [andb Z.eqb negb]; try io_run.
  exfalso. destruct H as [H | [H | H]]; try lia; discriminate H.
Qed.

Lemma handleNotification_count (state : LightState) (w : World) :
  (List.length (performed (handleNotification state) w) <= 15)%nat.
Proof.
  destruct (Flash_eq_dec (flashMode state) TIMED) as [Hm | Hm].
  - destruct (Z_gt_le_dec (flashOnMs state) 0) as [Hon | Hon];
      [destruct (Z_gt_le_dec (flashOffMs state) 0) as [Hoff | Hoff];
       [destruct (any_channel_on (color state)) eqn:Hany |] |].
    + rewrite handleNotification_breathing by assumption. cbn. lia.
    + rewrite handleNotification_no_breath by auto. cbn. lia.
    + rewrite handleNotification_no_breath by auto. cbn. lia.
    + rewrite handleNotification_no_breath by auto. cbn. lia.
  - rewrite handleNotification_solid by assumption.
    destruct (any_channel_on (color state)); cbn; lia.
Qed.

(** Turning the notification LED off already takes nine writes. *)
Lemma setLight_nine_writes :
  List.length (performed (setLight NOTIFICATIONS lights_off) idle_world) = 9%nat /\
  ~ (List.length (performed (setLight NOTIFICATIONS lights_off) idle_world) <= 7)%nat.
Proof.
  assert (E : List.length (performed (setLight NOTIFICATIONS lights_off) idle_world) = 9%nat)
    by reflexivity.
  split; [exact E | rewrite E; lia].
Qed.

(** C7, as the code has it: one [setLight] call performs at most 15
    attribute writes, whatever the light type and the state; a breathing
    notification performs exactly 15. *)
Theorem setLight_write_count :
  (forall (type : LightType) (state : LightState) (w : World),
      (List.length (performed (setLight type state) w) <= 15)%nat) /\
  List.length (performed (setLight NOTIFICATIONS long_flash) idle_world) = 15%nat.
Proof.
  split; [| reflexivity].
  intros type state w. rewrite setLight_performed, lights_find.
  destruct type; cbn [List.length]; try lia.
  - rewrite handleBacklight_performed. cbn. lia.
  - rewrite handleBattery_performed. cbn. lia.
  - apply handleNotification_count.
  - apply handleNotification_count.
Qed.

(** ** The Backlight handler *)

(** The value the handler computes is the luma scaled into the range of the
    panel, with 255 standing in for a maximum that cannot be read. *)
Lemma backlight_brightness_scaled (maxRead : Z) (state : LightState) :
  (maxRead < 0 -> backlight_brightness maxRead state = rgbToBrightness state) /\
  (0 <= maxRead -> rgbToBrightness state * maxRead < 2 ^ 31 ->
   backlight_brightness maxRead state = rgbToBrightness state * maxRead / 255).
Proof.
  pose proof (rgbToBrightness_range state) as Hr.
  unfold backlight_brightness, backlight_sent, kDefaultMaxBrightness.
  rewrite (wrap_i32_small (rgbToBrightness state)) by lia.
  split.
  - intros Hneg. destruct (Z.ltb_spec maxRead 0); [| lia].
    rewrite wrap_i32_small by lia.
    rewrite Z.quot_div_nonneg by lia. apply Z.div_mul. lia.
  - intros Hpos Hfit. destruct (Z.ltb_spec maxRead 0); [lia |].
    rewrite wrap_i32_small by nia.
    apply Z.quot_div_nonneg; nia.
Qed.

(** C1: on a panel whose maximum reads 128, a white request makes the
    Backlight handler compute and log the scaled value 128, yet the one
    write it issues on the brightness attribute carries no value. *)
Theorem handleBacklight_omits_value :
  rgbToBrightness white = 255 /\
  backlight_brightness 128 white = 128 /\
  logged (snd (handleBacklight white half_range_panel)) =
    ["Writing backlight brightness 128 (orig 255)"] /\
  performed (handleBacklight white) half_range_panel =
    [mkWrite (LCD_LED ++ BRIGHTNESS) None] /\
  ~ In (wr_int LCD_LED BRIGHTNESS 128)
       (performed (handleBacklight white) half_range_panel).
Proof.
  repeat split; try reflexivity.
  rewrite handleBacklight_performed.
  intros [H | []]. discriminate H.
Qed.

(** ** The alpha byte *)

Lemma same_rgb_same_luma (s1 s2 : LightState) :
  Z.land (color s1) 0x00ffffff = Z.land (color s2) 0x00ffffff ->
  rgbToBrightness s1 = rgbToBrightness s2.
Proof. intros H. unfold rgbToBrightness. now rewrite H. Qed.

(** Agreeing on bits 0 to 23 is agreeing under the mask 0x00ffffff. *)
Lemma same_rgb_bits (c1 c2 : Z) :
  (forall i, 0 <= i < 24 -> Z.testbit c1 i = Z.testbit c2 i) <->
  Z.land c1 0x00ffffff = Z.land c2 0x00ffffff.
Proof.
  change 0x00ffffff with (Z.ones 24). split.
  - intros H. apply Z.bits_inj'. intros i Hi.
    rewrite !Z.land_spec.
    destruct (Z_lt_le_dec i 24) as [Hlo | Hhi].
    + now rewrite H by lia.
    + rewrite Z.ones_spec_high by lia. now rewrite !andb_false_r.
  - intros H i Hi.
    apply (f_equal (fun z => Z.testbit z i)) in H.
    rewrite !Z.land_spec, Z.ones_spec_low in H by lia.
    now rewrite !andb_true_r in H.
Qed.

(** C10: two states whose colours agree on bits 0 to 23, whatever their
    alpha bytes, make the Backlight handler and the Battery handler issue
    the same sequence of attribute writes. *)
Theorem alpha_not_consulted (s1 s2 : LightState) (w : World) :
  Z.land (color s1) 0x00ffffff = Z.land (color s2) 0x00ffffff ->
  performed (handleBacklight s1) w = performed (handleBacklight s2) w /\
  performed (handleBattery s1) w = performed (handleBattery s2) w /\
  handleBacklight s1 w = handleBacklight s2 w /\
  handleBattery s1 w = handleBattery s2 w.
Proof.
  intros H. pose proof (same_rgb_same_luma s1 s2 H) as E.
  assert (Hb : handleBacklight s1 w = handleBacklight s2 w).
  { unfold handleBacklight, backlight_brightness, backlight_sent.
    now rewrite E. }
  assert (Ht : handleBattery s1 w = handleBattery s2 w).
  { unfold handleBattery, Light_rgbToBrightness. now rewrite E. }
  unfold performed. rewrite Hb, Ht. auto.
Qed.

Lemma alpha_not_consulted_witness :
  performed (handleBacklight (mkLightState 0x12ABCDEF NONE 0 0 USER))
            half_range_panel =
  performed (handleBacklight (mkLightState 0xFFABCDEF TIMED 5 7 SENSOR))
            half_range_panel /\
  performed (handleBattery (mkLightState 0x12ABCDEF NONE 0 0 USER))
            half_range_panel =
  performed (handleBattery (mkLightState 0xFFABCDEF TIMED 5 7 SENSOR))
            half_range_panel.
Proof.
  destruct (alpha_not_consulted
              (mkLightState 0x12ABCDEF NONE 0 0 USER)
              (mkLightState 0xFFABCDEF TIMED 5 7 SENSOR)
              half_range_panel eq_refl) as (Hb & Ht & _).
  split; [exact Hb | exact Ht].
Defined.

(** ** Supported types *)

(** C8: whatever [setLight] calls came before, [getSupportedTypes] hands its
    callback the list Backlight, Battery, Notifications, Attention and does
    nothing else; the list is the key list of the dispatch table, without
    repetition, and holds exactly the types [setLight] finds a handler
    for. *)
Theorem getSupportedTypes_fixed :
  (forall (calls : list (LightType * LightState)) (w : World)
          (_hidl_cb : list LightType -> IO unit),
      getSupportedTypes _hidl_cb (snd (run_calls calls w)) =
      _hidl_cb [BACKLIGHT; BATTERY; NOTIFICATIONS; ATTENTION]
               (snd (run_calls calls w))) /\
  (forall w : World, getSupportedTypes (fun _ => ret tt) w = (tt, w)) /\
  List.map fst lights = [BACKLIGHT; BATTERY; NOTIFICATIONS; ATTENTION] /\
  NoDup [BACKLIGHT; BATTERY; NOTIFICATIONS; ATTENTION] /\
  (forall type : LightType,
      In type [BACKLIGHT; BATTERY; NOTIFICATIONS; ATTENTION] <->
      map_find type lights <> None).
Proof.
  repeat split; try reflexivity.
  - repeat constructor; cbn; intuition discriminate.
  - rewrite lights_find. cbn.
    intros [<- | [<- | [<- | [<- | []]]]]; discriminate.
  - rewrite lights_find.
    destruct type; cbn; intros H; auto 6; now contradiction H.
Qed.

(** ** Concurrent calls *)

Section Concurrent.

Variable calls : nat -> LightType * LightState.
Variable sysfs : string -> option Z.

Lemma set_pc_same (i : nat) (pc : Pc) (f : nat -> Pc) : set_pc i pc f i = pc.
Proof. unfold set_pc. now rewrite Nat.eqb_refl. Qed.

Lemma set_pc_other (i k : nat) (pc : Pc) (f : nat -> Pc) :
  k <> i -> set_pc i pc f k = f k.
Proof.
  intros H. unfold set_pc.
  destruct (Nat.eqb_spec k i); [contradiction | reflexivity].
Qed.

Lemma writes_of_absent (i : nat) (ev : list (nat * Write)) :
  ~ In i (tids ev) -> writes_of i ev = [].
Proof.
  unfold writes_of, tids.
  induction ev as [| [k x] ev IH]; cbn; intros H; [reflexivity |].
  destruct (Nat.eqb_spec k i) as [-> | _]; [exfalso; auto |].
  apply IH. auto.
Qed.

Lemma writes_of_snoc (i k : nat) (x : Write) (ev : list (nat * Write)) :
  writes_of i (ev ++ [(k, x)]) =
  (writes_of i ev ++ if Nat.eqb k i then [x] else [])%list.
Proof.
  unfold writes_of. rewrite filter_app, map_app. cbn.
  destruct (Nat.eqb k i); reflexivity.
Qed.

Lemma tids_snoc (k : nat) (x : Write) (ev : list (nat * Write)) :
  tids (ev ++ [(k, x)]) = (tids ev ++ [k])%list.
Proof. unfold tids. now rewrite map_app. Qed.

Lemma call_writes_found (i : nat) (handler : Handler) :
  map_find (fst (calls i)) lights = Some handler ->
  call_writes calls sysfs i = handler_writes calls sysfs handler i.
Proof.
  intros H. unfold call_writes, handler_writes.
  now rewrite setLight_performed, H.
Qed.

Lemma call_writes_missing (i : nat) :
  map_find (fst (calls i)) lights = None -> call_writes calls sysfs i = [].
Proof.
  intros H. unfold call_writes. now rewrite setLight_performed, H.
Qed.

Lemma Inv_init : Inv calls sysfs init.
Proof.
  split; cbn.
  - intros i []. 
  - constructor.
Qed.

Lemma Inv_step (i : nat) (s : System) : Inv calls sysfs s -> Inv calls sysfs (thread_step calls sysfs i s).
Proof.
  intros [Hpc Hg]. pose proof (Hpc i) as Hi. unfold thread_step.
  destruct (pcs s i) as [| handler | [| x todo] | status] eqn:Epc.
  - (* lights.find(type) *)
    destruct (map_find (fst (calls i)) lights) as [handler |] eqn:Ef;
      split; cbn [pcs globalLock events]; auto; intros k;
      (destruct (Nat.eq_dec k i) as [-> | Hk];
       [rewrite set_pc_same | rewrite set_pc_other by assumption; apply Hpc]).
    + split; assumption.
    + rewrite writes_of_absent by assumption.
      symmetry. now apply call_writes_missing.
  - (* lock_guard *)
    destruct Hi as [Hout Hf].
    destruct (globalLock s) as [owner |] eqn:El;
      [rewrite <- El in Hpc; exact (mkInv calls sysfs s Hpc Hg) |].
    split; cbn [pcs globalLock events]; auto; intros k.
    destruct (Nat.eq_dec k i) as [-> | Hk].
    + rewrite set_pc_same. repeat split.
      * rewrite writes_of_absent by assumption.
        symmetry. now apply call_writes_found.
      * intros Hin. contradiction.
    + rewrite set_pc_other by assumption.
      specialize (Hpc k). destruct (pcs s k); auto.
      destruct Hpc as [Hlock _]. congruence.
  - (* the handler has returned: the lock_guard goes out of scope *)
    destruct Hi as (Hlock & Hw & _).
    split; cbn [pcs globalLock events]; auto; intros k.
    destruct (Nat.eq_dec k i) as [-> | Hk].
    + rewrite set_pc_same. now rewrite app_nil_r in Hw.
    + rewrite set_pc_other by assumption.
      specialize (Hpc k). destruct (pcs s k); auto.
      destruct Hpc as [Hlock' _]. congruence.
  - (* one write of the handler *)
    destruct Hi as (Hlock & Hw & Hlast).
    split; cbn [pcs globalLock events].
    + intros k. destruct (Nat.eq_dec k i) as [-> | Hk].
      * rewrite set_pc_same. repeat split; auto.
        -- rewrite writes_of_snoc, Nat.eqb_refl, <- app_assoc. exact Hw.
        -- intros _. exists (tids (events s)). apply tids_snoc.
      * rewrite set_pc_other by assumption.
        specialize (Hpc k).
        assert (Hin : In k (tids (events s ++ [(i, x)])) -> In k (tids (events s))).
        { rewrite tids_snoc, in_app_iff. cbn. intuition congruence. }
        assert (Hwk : writes_of k (events s ++ [(i, x)]) = writes_of k (events s)).
        { rewrite writes_of_snoc.
          destruct (Nat.eqb_spec i k); [congruence | apply app_nil_r]. }
        destruct (pcs s k); rewrite ?Hwk; auto.
        -- destruct Hpc; split; auto.
        -- destruct Hpc as [Hlock' _]. congruence.
    + rewrite tids_snoc. constructor; assumption.
  - (* returned *)
    exact (mkInv calls sysfs s Hpc Hg).
Qed.

Lemma Inv_run (schedule : list nat) (s : System) : Inv calls sysfs s -> Inv calls sysfs (run calls sysfs schedule s).
Proof.
  revert s. induction schedule as [| i schedule IH]; intros s H; cbn.
  - exact H.
  - apply IH. now apply Inv_step.
Qed.

(** In a grouped list no thread comes back after another one. *)
Lemma grouped_no_return (l : list nat) :
  grouped l ->
  forall (p q r a b : nat),
    (p < q < r)%nat ->
    nth_error l p = Some a -> nth_error l q = Some b ->
    nth_error l r = Some a -> a = b.
Proof.
  induction 1 as [| l i Hg IH Hlast]; intros p q r a b Hlt Hp Hq Hr.
  - destruct p; discriminate Hp.
  - assert (Hr' : (r < List.length (l ++ [i]))%nat)
      by (apply nth_error_Some; congruence).
    rewrite last_length in Hr'.
    rewrite nth_error_app1 in Hp, Hq by lia.
    destruct (Nat.eq_dec r (List.length l)) as [-> | Hne].
    + rewrite nth_error_app2, Nat.sub_diag in Hr by lia.
      cbn in Hr. injection Hr as <-.
      destruct (Hlast (nth_error_In _ _ Hp)) as [l' ->].
      rewrite last_length in Hlt.
      destruct (Nat.eq_dec q (List.length l')) as [-> | Hq'].
      * rewrite nth_error_app2, Nat.sub_diag in Hq by lia.
        cbn in Hq. congruence.
      * apply (IH p q (List.length l') i b); try lia; try assumption.
        rewrite nth_error_app2, Nat.sub_diag by lia. reflexivity.
    + rewrite nth_error_app1 in Hr by lia.
      apply (IH p q r a b); auto.
Qed.

Lemma tids_nth (ev : list (nat * Write)) (p i : nat) (x : Write) :
  nth_error ev p = Some (i, x) -> nth_error (tids ev) p = Some i.
Proof. intros H. unfold tids. now rewrite nth_error_map, H. Qed.

(** C9: in every state the threads can reach, under any schedule, the
    writes of each call appear in the order the call issues them; and as
    soon as a write of one call comes before a write of another call, the
    first call has issued all its writes and each of them comes before
    every write of the other call. *)
Theorem setLight_calls_serialized (schedule : list nat) :
  let tr := events (run calls sysfs schedule init) in
  (forall i : nat,
      exists todo : list Write, (writes_of i tr ++ todo)%list = call_writes calls sysfs i) /\
  (forall (i j p q : nat) (x y : Write),
      i <> j -> (p < q)%nat ->
      nth_error tr p = Some (i, x) -> nth_error tr q = Some (j, y) ->
      writes_of i tr = call_writes calls sysfs i /\
      (forall (r s : nat) (x' y' : Write),
          nth_error tr r = Some (j, y') -> nth_error tr s = Some (i, x') ->
          (s < r)%nat)).
Proof.
  intros tr. destruct (Inv_run schedule init Inv_init) as [Hpc Hg].
  fold tr in Hpc, Hg. split.
  - intros i. specialize (Hpc i).
    destruct (pcs (run calls sysfs schedule init) i) as [| handler | todo | status].
    + exists (call_writes calls sysfs i). now rewrite writes_of_absent.
    + exists (call_writes calls sysfs i). now rewrite writes_of_absent.
    + exists todo. apply Hpc.
    + exists []. now rewrite app_nil_r.
  - intros i j p q x y Hij Hpq Hp Hq.
    apply tids_nth in Hp, Hq. split.
    + specialize (Hpc i).
      destruct (pcs (run calls sysfs schedule init) i) as [| handler | todo | status].
      * exfalso. apply Hpc. eapply nth_error_In; eauto.
      * exfalso. apply Hpc. eapply nth_error_In; eauto.
      * exfalso. destruct Hpc as (_ & _ & Hlast).
        destruct (Hlast (nth_error_In _ _ Hp)) as [l' El].
        assert (Hq' : (q < List.length (tids tr))%nat)
          by (apply nth_error_Some; congruence).
        rewrite El in Hp, Hq, Hg, Hq'. rewrite last_length in Hq'.
        destruct (Nat.eq_dec q (List.length l')) as [-> | Hne].
        -- rewrite nth_error_app2, Nat.sub_diag in Hq by lia.
           cbn in Hq. congruence.
        -- apply Hij.
           apply (grouped_no_return _ Hg p q (List.length l') i j);
             try lia; try assumption.
           rewrite nth_error_app2, Nat.sub_diag by lia. reflexivity.
      * exact Hpc.
    + intros r s x' y' Hr Hs. apply tids_nth in Hr, Hs.
      destruct (Nat.lt_ge_cases s r) as [Hlt | Hge]; [exact Hlt | exfalso].
      assert (r <> s) by (intros ->; congruence).
      assert (q <> s) by (intros ->; congruence).
      destruct (Nat.lt_ge_cases q s).
      * apply Hij. apply (grouped_no_return _ Hg p q s i j); auto; lia.
      * apply Hij. symmetry.
        apply (grouped_no_return _ Hg r s q j i); auto; lia.
Qed.

End Concurrent.

Lemma setLight_calls_serialized_witness :
  writes_of 0 (events (run two_calls (fun _ => None) contended_schedule init)) =
  call_writes two_calls (fun _ => None) 0.
Proof.
  apply (proj2 (setLight_calls_serialized two_calls (fun _ => None)
                  contended_schedule)
           0%nat 1%nat 0%nat 6%nat
           (wr_int RED_LED BREATH 1) (wr_int RED_LED BREATH 0));
    [discriminate | lia | reflexivity | reflexivity].
Defined.

(** * Further properties of the handlers and of the service *)

(** ** Frames: what a call adds does not depend on the world *)

Lemma handleBacklight_emits (state : LightState) :
  exists l, emits (handleBacklight state) l.
Proof. unfold handleBacklight. eexists. repeat io_step. Qed.

Lemma handleBattery_emits (state : LightState) :
  exists l, emits (handleBattery state) l.
Proof. unfold handleBattery. eexists. repeat io_step. Qed.

Lemma handleNotification_emits (state : LightState) :
  exists l, emits (handleNotification state) l.
Proof.
  unfold handleNotification. cbv zeta.
  destruct (flashMode state);
    try destruct ((flashOnMs state >? 0) && (flashOffMs state >? 0));
    cbn [Z.eqb negb];
    destruct (any_channel_on (color state));
    eexists; repeat io_step.
Qed.

Lemma setLight_emits (type : LightType) (state : LightState) :
  exists l, emits (setLight type state) l.
Proof.
  unfold setLight. rewrite lights_find.
  destruct type;
    try (exists []; apply emits_ret);
    [ destruct (handleBacklight_emits state) as [l Hl]
    | destruct (handleBattery_emits state) as [l Hl]
    | destruct (handleNotification_emits state) as [l Hl]
    | destruct (handleNotification_emits state) as [l Hl] ];
    exists (l ++ [])%list; (eapply emits_bind; [exact Hl | intros ?; apply emits_ret]).
Qed.

Lemma setLight_emits_own (type : LightType) (state : LightState) :
  emits (setLight type state) (performed (setLight type state) idle_world).
Proof.
  destruct (setLight_emits type state) as [l Hl].
  now rewrite (performed_emits _ idle_world l l Hl eq_refl).
Qed.

Lemma setLight_returns (type : LightType) (state : LightState) (w : World) :
  fst (setLight type state w) =
  if supported type then SUCCESS else LIGHT_NOT_SUPPORTED.
Proof.
  unfold setLight. rewrite lights_find.
  destruct type; cbn [supported]; try reflexivity; unfold bind, ret;
    match goal with |- fst (let (_, _) := ?h state w in _) = _ =>
      destruct (h state w) end; reflexivity.
Qed.

(** X1: the writes a [setLight] call performs are the same from every world:
    they depend neither on what was written before nor on what the
    attributes read as; sending the same request again repeats the same
    writes. *)
Theorem setLight_writes_history_free :
  forall (type : LightType) (state : LightState) (w1 w2 : World),
    performed (setLight type state) w1 = performed (setLight type state) w2 /\
    performed (setLight type state) (snd (setLight type state w1)) =
    performed (setLight type state) w1.
Proof.
  intros type state w1 w2.
  pose proof (setLight_emits_own type state) as H.
  rewrite (performed_emits _ w1 _ _ H eq_refl).
  rewrite (performed_emits _ w2 _ _ H eq_refl).
  rewrite (performed_emits _ (snd (setLight type state w1)) _ _ H eq_refl).
  split; reflexivity.
Qed.

Lemma run_calls_emits (calls : list (LightType * LightState)) :
  emits (run_calls calls)
        (flat_map (fun c => performed (setLight (fst c) (snd c)) idle_world)
                  calls).
Proof.
  induction calls as [| [type state] rest IH]; cbn [run_calls flat_map fst snd].
  - apply emits_ret.
  - eapply emits_bind; [apply setLight_emits_own |].
    intros s. rewrite <- (app_nil_r (flat_map _ rest)).
    eapply emits_bind; [exact IH |]. intros ss. apply emits_ret.
Qed.

(** X2: a history of [setLight] calls performs, in order, the writes each
    call performs on its own, and returns for each call the status that call
    returns on its own: Success for a supported type, LightNotSupported
    otherwise. *)
Theorem run_calls_composes :
  forall (calls : list (LightType * LightState)) (w : World),
    performed (run_calls calls) w =
    flat_map (fun c => performed (setLight (fst c) (snd c)) idle_world) calls /\
    fst (run_calls calls w) =
    List.map (fun c => if supported (fst c) then SUCCESS
                       else LIGHT_NOT_SUPPORTED) calls.
Proof.
  intros calls w. split.
  - exact (performed_emits _ w _ _ (run_calls_emits calls) eq_refl).
  - revert w. induction calls as [| [type state] rest IH]; intros w.
    + reflexivity.
    + cbn [run_calls List.map fst]. unfold bind at 1.
      pose proof (setLight_returns type state w) as Hs.
      destruct (setLight type state w) as [s w']. cbn [fst] in Hs.
      unfold bind. specialize (IH w').
      destruct (run_calls rest w') as [ss w'']. cbn [fst] in IH |- *.
      unfold ret. cbn [fst]. now rewrite Hs, IH.
Qed.

(** ** The shapes a call can take *)

Lemma handleNotification_shapes (state : LightState) (w : World) :
  performed (handleNotification state) w = disable_breathing \/
  performed (handleNotification state) w =
    (disable_breathing ++
     [ wr_int RED_LED BRIGHTNESS 0; wr_int GREEN_LED BRIGHTNESS 0;
       wr_int BLUE_LED BRIGHTNESS 0 ])%list \/
  performed (handleNotification state) w =
    (disable_breathing ++
     [ wr_int RED_LED BRIGHTNESS 255; wr_int GREEN_LED BRIGHTNESS 255;
       wr_int BLUE_LED BRIGHTNESS 255 ])%list \/
  exists pattern : string,
    performed (handleNotification state) w =
    (disable_breathing ++
     [ wr_str RED_LED BREATH_PATTERN pattern;
       wr_int RED_LED BREATH 1; wr_int RED_LED BRIGHTNESS 255;
       wr_str GREEN_LED BREATH_PATTERN pattern;
       wr_int GREEN_LED BREATH 1; wr_int GREEN_LED BRIGHTNESS 255;
       wr_str BLUE_LED BREATH_PATTERN pattern;
       wr_int BLUE_LED BREATH 1; wr_int BLUE_LED BRIGHTNESS 255 ])%list.
Proof.
  destruct (Flash_eq_dec (flashMode state) TIMED) as [Hm | Hm].
  - destruct (Z_gt_le_dec (flashOnMs state) 0) as [Hon | Hon];
      [destruct (Z_gt_le_dec (flashOffMs state) 0) as [Hoff | Hoff];
       [destruct (any_channel_on (color state)) eqn:Hany |] |].
    + right. right. right. eexists.
      rewrite handleNotification_breathing by assumption. reflexivity.
    + left. apply handleNotification_no_breath; auto.
    + left. apply handleNotification_no_breath; auto.
    + left. apply handleNotification_no_breath; auto.
  - rewrite handleNotification_solid by assumption.
    destruct (any_channel_on (color state)); auto.
Qed.

Lemma path_known_sound (x : Write) :
  path_known x = true -> In (wpath x) written_attributes.
Proof.
  unfold path_known. intros H.
  apply existsb_exists in H. destruct H as (p & Hin & Heq).
  apply String.eqb_eq in Heq. now rewrite Heq.
Qed.

Lemma handleNotification_paths (state : LightState) (w : World) :
  forallb path_known (performed (handleNotification state) w) = true.
Proof.
  destruct (handleNotification_shapes state w) as [E | [E | [E | [p E]]]];
    rewrite E; reflexivity.
Qed.

(** X3: whatever the type and the state, every write of a [setLight] call
    goes to the brightness of the panel or to the breath, brightness or
    breath_pattern attribute of the red, green or blue LED; nothing else is
    ever written, in particular not max_brightness and not the charging
    LED. *)
Theorem setLight_writes_known_attributes :
  forall (type : LightType) (state : LightState) (w : World) (x : Write),
    In x (performed (setLight type state) w) ->
    In (wpath x) written_attributes.
Proof.
  intros type state w x Hin. apply path_known_sound.
  revert x Hin. apply forallb_forall.
  rewrite setLight_performed, lights_find.
  destruct type; try reflexivity.
  - rewrite handleBacklight_performed. reflexivity.
  - rewrite handleBattery_performed. reflexivity.
  - apply handleNotification_paths.
  - apply handleNotification_paths.
Qed.

Lemma setLight_writes_known_attributes_witness :
  In (BLUE_LED ++ BREATH_PATTERN) written_attributes.
Proof.
  apply (setLight_writes_known_attributes ATTENTION long_flash idle_world
           (wr_str BLUE_LED BREATH_PATTERN
                   "100000000 100000000 100000000 100000000")).
  vm_compute. do 12 right. left. reflexivity.
Defined.

(** ** The values written *)

(** Decides the membership of a write in an explicit list, then reads the
    integer off it. *)
Ltac pick_write H Hv :=
  cbn [In app disable_breathing] in H;
  repeat (destruct H as [H | H];
          [subst; cbn [wvalue wr_int wr_str] in Hv;
           try discriminate Hv; injection Hv as <- |]);
  try contradiction H.

Ltac not_breath :=
  let Hp := fresh "Hp" in
  intros Hp; cbn in Hp; exfalso;
  repeat (destruct Hp as [Hp | Hp]; [discriminate Hp |]); exact Hp.

Lemma handleNotification_values (state : LightState) (w : World)
    (x : Write) (n : Z) :
  In x (performed (handleNotification state) w) ->
  wvalue x = Some (VInt n) ->
  0 <= n <= 255 /\
  (In (wpath x) [RED_LED ++ BREATH; GREEN_LED ++ BREATH; BLUE_LED ++ BREATH] ->
   n = 0 \/ n = 1).
Proof.
  intros Hin Hv.
  destruct (handleNotification_shapes state w) as [E | [E | [E | [p E]]]];
    rewrite E in Hin; pick_write Hin Hv; (split; [lia | auto]); not_breath.
Qed.

(** X4: every integer a [setLight] call writes lies between 0 and 255, and
    the integers written to a breath attribute are 0 or 1. *)
Theorem setLight_values_in_range :
  forall (type : LightType) (state : LightState) (w : World)
         (x : Write) (n : Z),
    In x (performed (setLight type state) w) ->
    wvalue x = Some (VInt n) ->
    0 <= n <= 255 /\
    (In (wpath x) [RED_LED ++ BREATH; GREEN_LED ++ BREATH; BLUE_LED ++ BREATH] ->
     n = 0 \/ n = 1).
Proof.
  intros type state w x n Hin Hv.
  rewrite setLight_performed, lights_find in Hin.
  destruct type; try contradiction Hin.
  - rewrite handleBacklight_performed in Hin.
    destruct Hin as [<- | []]. discriminate Hv.
  - rewrite handleBattery_performed in Hin. cbv zeta in Hin.
    rewrite luma_as_int in Hin.
    pose proof (rgbToBrightness_range state) as Hr.
    destruct (rgbToBrightness state =? 0);
      pick_write Hin Hv; (split; [lia | auto]); not_breath.
  - now apply (handleNotification_values state w).
  - now apply (handleNotification_values state w).
Qed.

Lemma setLight_values_in_range_witness :
  0 <= 255 <= 255 /\
  (In (wpath (wr_int GREEN_LED BRIGHTNESS 255))
      [RED_LED ++ BREATH; GREEN_LED ++ BREATH; BLUE_LED ++ BREATH] ->
   255 = 0 \/ 255 = 1).
Proof.
  apply (setLight_values_in_range BATTERY white idle_world
           (wr_int GREEN_LED BRIGHTNESS 255) 255).
  - vm_compute. do 3 right. left. reflexivity.
  - reflexivity.
Defined.

(** ** More on the Notification handler *)

(** X5: a Timed request whose on or off duration is not positive, or whose
    alpha-scaled channels are all 0, only gets the reset: six writes that
    leave the three LEDs dark and not breathing, whatever the colour. *)
Theorem handleNotification_timed_dark (state : LightState) (w : World)
    (A R G B : Z) :
  0 <= A < 256 -> 0 <= R < 256 -> 0 <= G < 256 -> 0 <= B < 256 ->
  color state = A * 2 ^ 24 + R * 2 ^ 16 + G * 2 ^ 8 + B ->
  flashMode state = TIMED ->
  flashOnMs state <= 0 \/ flashOffMs state <= 0 \/
  (alpha_scaled A R = 0 /\ alpha_scaled A G = 0 /\ alpha_scaled A B = 0) ->
  performed (handleNotification state) w =
  [ wr_int RED_LED BREATH 0; wr_int RED_LED BRIGHTNESS 0;
    wr_int GREEN_LED BREATH 0; wr_int GREEN_LED BRIGHTNESS 0;
    wr_int BLUE_LED BREATH 0; wr_int BLUE_LED BRIGHTNESS 0 ].
Proof.
  intros HA HR HG HB Hc Hm Hd.
  apply handleNotification_no_breath; [assumption |].
  destruct Hd as [Hd | [Hd | (E1 & E2 & E3)]]; auto.
  right. right. now apply (any_channel_on_false (color state) A R G B).
Qed.

Lemma handleNotification_timed_dark_witness :
  performed (handleNotification (mkLightState 0xFFFFFFFF TIMED 0 500 USER))
            idle_world =
  [ wr_int RED_LED BREATH 0; wr_int RED_LED BRIGHTNESS 0;
    wr_int GREEN_LED BREATH 0; wr_int GREEN_LED BRIGHTNESS 0;
    wr_int BLUE_LED BREATH 0; wr_int BLUE_LED BRIGHTNESS 0 ].
Proof.
  apply (handleNotification_timed_dark
           (mkLightState 0xFFFFFFFF TIMED 0 500 USER) idle_world
           0xFF 0xFF 0xFF 0xFF
           ltac:(lia) ltac:(lia) ltac:(lia) ltac:(lia) eq_refl eq_refl).
  left. cbn. lia.
Defined.

Lemma alpha_scaled_positive (A x : Z) :
  0 <= A < 256 -> 0 <= x < 256 ->
  (alpha_scaled A x > 0 <->
   (A = 255 /\ x > 0) \/ (A < 255 /\ 255 <= x * A)).
Proof.
  intros HA Hx. unfold alpha_scaled.
  destruct (Z.eqb_spec A 0xFF) as [-> | Hne].
  - lia.
  - assert (A < 255) by lia.
    pose proof (Z.div_mod (x * A) 255 ltac:(lia)) as Hdm.
    pose proof (Z.mod_pos_bound (x * A) 255 ltac:(lia)) as Hmod.
    change 0xFF with 255. split.
    + intros Hpos. right. split; [assumption |]. lia.
    + intros [[E _] | [_ Hge]]; [lia |].
      assert (0 < x * A / 255); [| lia].
      apply Z.div_str_pos. lia.
Qed.

(** X6: when the flash mode is not Timed, the Notification handler switches
    the LEDs on (brightness 255) exactly when the alpha byte is 0xFF and some
    colour byte is positive, or the alpha byte is below 0xFF and some colour
    byte times alpha reaches 255; with alpha 0 the LEDs stay dark. *)
Theorem handleNotification_lit_iff (state : LightState) (w : World)
    (A R G B : Z) :
  0 <= A < 256 -> 0 <= R < 256 -> 0 <= G < 256 -> 0 <= B < 256 ->
  color state = A * 2 ^ 24 + R * 2 ^ 16 + G * 2 ^ 8 + B ->
  flashMode state <> TIMED ->
  (In (wr_int RED_LED BRIGHTNESS 255) (performed (handleNotification state) w) <->
   (A = 255 /\ (R > 0 \/ G > 0 \/ B > 0)) \/
   (A < 255 /\ (255 <= R * A \/ 255 <= G * A \/ 255 <= B * A))).
Proof.
  intros HA HR HG HB Hc Hm.
  rewrite handleNotification_solid by assumption.
  rewrite (any_channel_on_bytes (color state) A R G B) by assumption.
  pose proof (alpha_scaled_positive A R HA HR) as PR.
  pose proof (alpha_scaled_positive A G HA HG) as PG.
  pose proof (alpha_scaled_positive A B HA HB) as PB.
  destruct ((alpha_scaled A R >? 0) || (alpha_scaled A G >? 0)
            || (alpha_scaled A B >? 0)) eqn:E.
  - split; [intros _ | intros _; cbn; auto 10].
    rewrite !orb_true_iff, !Z.gtb_gt in E. lia.
  - split.
    + intros Hin. cbn in Hin. exfalso.
      repeat (destruct Hin as [Hin | Hin]; [discriminate Hin |]). exact Hin.
    + intros Hc'. exfalso.
      rewrite !orb_false_iff, !Z.gtb_ltb, !Z.ltb_ge in E. lia.
Qed.

Lemma handleNotification_lit_iff_witness :
  In (wr_int RED_LED BRIGHTNESS 255)
     (performed (handleNotification (mkLightState 0x80000002 NONE 0 0 USER))
                idle_world) <->
  (0x80 = 255 /\ (0 > 0 \/ 0 > 0 \/ 2 > 0)) \/
  (0x80 < 255 /\ (255 <= 0 * 0x80 \/ 255 <= 0 * 0x80 \/ 255 <= 2 * 0x80)).
Proof.
  apply (handleNotification_lit_iff
           (mkLightState 0x80000002 NONE 0 0 USER) idle_world 0x80 0 0 2);
    try lia; try reflexivity. discriminate.
Defined.

(** X7: dimming by the alpha byte never brightens: for every colour the
    three scaled channels lie between 0 and the colour's own red, green and
    blue bytes. *)
Theorem scaled_channels_never_brighten :
  forall c : Z,
    let '(r, g, b) := scaled_channels c in
    0 <= r <= Z.land (Z.shiftr c 16) 0xFF /\
    0 <= g <= Z.land (Z.shiftr c 8) 0xFF /\
    0 <= b <= Z.land c 0xFF.
Proof.
  intros c. unfold scaled_channels.
  pose proof (byte_range (Z.shiftr c 24)) as HA. change 0xff with 0xFF in HA.
  pose proof (byte_range (Z.shiftr c 16)) as HR. change 0xff with 0xFF in HR.
  pose proof (byte_range (Z.shiftr c 8)) as HG. change 0xff with 0xFF in HG.
  pose proof (byte_range c) as HB. change 0xff with 0xFF in HB.
  destruct (Z.land (Z.shiftr c 24) 0xFF =? 0xFF); cbn [negb]; [lia |].
  rewrite !wrap_u32_small by nia.
  repeat split; try (apply Z.div_pos; nia);
    apply Z.div_le_upper_bound; nia.
Qed.

(** ** More on the luma *)

Lemma rgbToBrightness_bytes (state : LightState) (A R G B : Z) :
  0 <= A < 256 -> 0 <= R < 256 -> 0 <= G < 256 -> 0 <= B < 256 ->
  color state = A * 2 ^ 24 + R * 2 ^ 16 + G * 2 ^ 8 + B ->
  rgbToBrightness state = (77 * R + 150 * G + 29 * B) / 256.
Proof.
  intros HA HR HG HB Hc. rewrite rgbToBrightness_unwrapped.
  destruct (packed_bytes (color state) A R G B HA HR HG HB Hc)
    as (_ & -> & -> & ->).
  reflexivity.
Qed.

(** X8: on a grey colour, whose red, green and blue bytes are one value [v],
    the luma is [v] itself, whatever the alpha byte: the three weights add up
    to 256. *)
Theorem rgbToBrightness_gray (state : LightState) (A v : Z) :
  0 <= A < 256 -> 0 <= v < 256 ->
  color state = A * 2 ^ 24 + v * 2 ^ 16 + v * 2 ^ 8 + v ->
  rgbToBrightness state = v.
Proof.
  intros HA Hv Hc.
  rewrite (rgbToBrightness_bytes state A v v v) by assumption.
  replace (77 * v + 150 * v + 29 * v) with (v * 256) by lia.
  apply Z.div_mul. lia.
Qed.

Lemma rgbToBrightness_gray_witness :
  rgbToBrightness (mkLightState 0xFF7F7F7F NONE 0 0 USER) = 0x7F.
Proof.
  apply (rgbToBrightness_gray (mkLightState 0xFF7F7F7F NONE 0 0 USER) 0xFF 0x7F);
    try lia; reflexivity.
Defined.

(** X9: the luma is monotone: raising the red, green or blue byte of a
    colour never lowers it. *)
Theorem rgbToBrightness_monotone (s1 s2 : LightState)
    (A1 R1 G1 B1 A2 R2 G2 B2 : Z) :
  0 <= A1 < 256 -> 0 <= R1 < 256 -> 0 <= G1 < 256 -> 0 <= B1 < 256 ->
  0 <= A2 < 256 -> 0 <= R2 < 256 -> 0 <= G2 < 256 -> 0 <= B2 < 256 ->
  color s1 = A1 * 2 ^ 24 + R1 * 2 ^ 16 + G1 * 2 ^ 8 + B1 ->
  color s2 = A2 * 2 ^ 24 + R2 * 2 ^ 16 + G2 * 2 ^ 8 + B2 ->
  R1 <= R2 -> G1 <= G2 -> B1 <= B2 ->
  rgbToBrightness s1 <= rgbToBrightness s2.
Proof.
  intros HA1 HR1 HG1 HB1 HA2 HR2 HG2 HB2 Hc1 Hc2 LR LG LB.
  rewrite (rgbToBrightness_bytes s1 A1 R1 G1 B1) by assumption.
  rewrite (rgbToBrightness_bytes s2 A2 R2 G2 B2) by assumption.
  apply Z.div_le_mono; lia.
Qed.

Lemma rgbToBrightness_monotone_witness :
  rgbToBrightness (mkLightState 0xFF102030 NONE 0 0 USER) <=
  rgbToBrightness (mkLightState 0x00112233 TIMED 1 1 SENSOR).
Proof.
  apply (rgbToBrightness_monotone
           (mkLightState 0xFF102030 NONE 0 0 USER)
           (mkLightState 0x00112233 TIMED 1 1 SENSOR)
           0xFF 0x10 0x20 0x30 0x00 0x11 0x22 0x33);
    try lia; reflexivity.
Defined.

(** X10: the Battery handler switches the LEDs off (breath 0) exactly when
    77*R + 150*G + 29*B is below 256: a colour that dark counts as no
    colour. *)
Theorem handleBattery_off_iff (state : LightState) (w : World)
    (A R G B : Z) :
  0 <= A < 256 -> 0 <= R < 256 -> 0 <= G < 256 -> 0 <= B < 256 ->
  color state = A * 2 ^ 24 + R * 2 ^ 16 + G * 2 ^ 8 + B ->
  (In (wr_int RED_LED BREATH 0) (performed (handleBattery state) w) <->
   77 * R + 150 * G + 29 * B < 256).
Proof.
  intros HA HR HG HB Hc.
  rewrite handleBattery_performed. cbv zeta. rewrite luma_as_int.
  rewrite (rgbToBrightness_bytes state A R G B) by assumption.
  pose proof (Z.div_mod (77 * R + 150 * G + 29 * B) 256 ltac:(lia)) as Hdm.
  pose proof (Z.mod_pos_bound (77 * R + 150 * G + 29 * B) 256 ltac:(lia)) as Hm.
  destruct (Z.eqb_spec ((77 * R + 150 * G + 29 * B) / 256) 0) as [E | E].
  - split; [intros _; lia | intros _; left; reflexivity].
  - split.
    + intros Hin. exfalso. cbn in Hin.
      repeat (destruct Hin as [Hin | Hin]; [discriminate Hin |]). exact Hin.
    + intros Hlt. exfalso. apply E. apply Z.div_small. lia.
Qed.

Lemma handleBattery_off_iff_witness :
  In (wr_int RED_LED BREATH 0)
     (performed (handleBattery (mkLightState 0xFF000008 NONE 0 0 USER))
                idle_world) <->
  77 * 0 + 150 * 0 + 29 * 8 < 256.
Proof.
  apply (handleBattery_off_iff (mkLightState 0xFF000008 NONE 0 0 USER)
           idle_world 0xFF 0 0 8);
    try lia; reflexivity.
Defined.

(** ** More on the Backlight handler *)

Lemma handleBacklight_logged (state : LightState) (w : World) :
  logged (snd (handleBacklight state w)) =
  (logged w ++
   [ backlight_log_line
       (backlight_brightness
          (match attr_int w (LCD_LED ++ MAX_BRIGHTNESS)%string with
           | Some r => r
           | None => -1
           end) state)
       (backlight_sent state) ])%list.
Proof. reflexivity. Qed.

(** X11: when the maximum brightness of the panel cannot be read, or reads
    negative, the Backlight handler falls back on 255 and the brightness it
    computes and logs is the luma itself. *)
Theorem handleBacklight_fallback (state : LightState) (w : World) :
  attr_int w (LCD_LED ++ MAX_BRIGHTNESS) = None \/
  (exists m, attr_int w (LCD_LED ++ MAX_BRIGHTNESS) = Some m /\ m < 0) ->
  logged (snd (handleBacklight state w)) =
  (logged w ++
   [ backlight_log_line (rgbToBrightness state) (rgbToBrightness state) ])%list.
Proof.
  intros H. rewrite handleBacklight_logged.
  pose proof (rgbToBrightness_range state) as Hr.
  assert (Hs : backlight_sent state = rgbToBrightness state)
    by (apply wrap_i32_small; lia).
  rewrite Hs.
  destruct H as [-> | (m & -> & Hm)].
  - now rewrite (proj1 (backlight_brightness_scaled (-1) state)) by lia.
  - now rewrite (proj1 (backlight_brightness_scaled m state)) by lia.
Qed.

Lemma handleBacklight_fallback_witness :
  logged (snd (handleBacklight white idle_world)) =
  (logged idle_world ++
   [ backlight_log_line (rgbToBrightness white) (rgbToBrightness white) ])%list.
Proof.
  apply (handleBacklight_fallback white idle_world). left. reflexivity.
Defined.

(** X12: for a panel maximum [m] that is not negative and small enough for
    255 * m to fit an [int], the brightness the Backlight handler computes
    lies between 0 and [m]; a luma of 255 gives [m] and a luma of 0 gives
    0. *)
Theorem backlight_brightness_within_max (m : Z) (state : LightState) :
  0 <= m -> 255 * m < 2 ^ 31 ->
  0 <= backlight_brightness m state <= m /\
  (rgbToBrightness state = 255 -> backlight_brightness m state = m) /\
  (rgbToBrightness state = 0 -> backlight_brightness m state = 0).
Proof.
  intros Hm Hfit.
  pose proof (rgbToBrightness_range state) as Hr.
  rewrite (proj2 (backlight_brightness_scaled m state) Hm) by nia.
  repeat split.
  - apply Z.div_pos; nia.
  - apply Z.div_le_upper_bound; nia.
  - intros ->. rewrite Z.mul_comm. apply Z.div_mul. lia.
  - intros ->. reflexivity.
Qed.

Lemma backlight_brightness_within_max_witness :
  0 <= backlight_brightness 4095 white <= 4095 /\
  (rgbToBrightness white = 255 -> backlight_brightness 4095 white = 4095) /\
  (rgbToBrightness white = 0 -> backlight_brightness 4095 white = 0).
Proof.
  apply (backlight_brightness_within_max 4095 white); lia.
Defined.

(** ** The LEDs after a call *)

Lemma handleNotification_led_states (state : LightState) (w : World) :
  let ws := performed (handleNotification state) w in
  (led_state RED_LED ws = (Some (VInt 0), Some (VInt 0)) \/
   led_state RED_LED ws = (Some (VInt 0), Some (VInt 255)) \/
   led_state RED_LED ws = (Some (VInt 1), Some (VInt 255))) /\
  led_state RED_LED ws = led_state GREEN_LED ws /\
  led_state GREEN_LED ws = led_state BLUE_LED ws /\
  last_written (RED_LED ++ BREATH_PATTERN) ws None =
  last_written (GREEN_LED ++ BREATH_PATTERN) ws None /\
  last_written (GREEN_LED ++ BREATH_PATTERN) ws None =
  last_written (BLUE_LED ++ BREATH_PATTERN) ws None.
Proof.
  cbv zeta.
  destruct (handleNotification_shapes state w) as [E | [E | [E | [p E]]]];
    rewrite E; repeat split; auto.
Qed.

(** X13: the three LEDs are always driven alike: after any [setLight] call
    the red, the green and the blue LED hold the same breath flag, the same
    brightness and the same breath pattern among the values the call
    wrote. *)
Theorem leds_driven_alike :
  forall (type : LightType) (state : LightState) (w : World),
    let ws := performed (setLight type state) w in
    led_state RED_LED ws = led_state GREEN_LED ws /\
    led_state GREEN_LED ws = led_state BLUE_LED ws /\
    last_written (RED_LED ++ BREATH_PATTERN) ws None =
    last_written (GREEN_LED ++ BREATH_PATTERN) ws None /\
    last_written (GREEN_LED ++ BREATH_PATTERN) ws None =
    last_written (BLUE_LED ++ BREATH_PATTERN) ws None.
Proof.
  intros type state w. cbv zeta.
  rewrite setLight_performed, lights_find.
  destruct type; try (repeat split; reflexivity).
  - rewrite handleBacklight_performed. repeat split; reflexivity.
  - rewrite handleBattery_performed. repeat split; reflexivity.
  - apply handleNotification_led_states.
  - apply handleNotification_led_states.
Qed.

(** X14: after a Battery, Notifications or Attention request each LED has
    been given a breath flag of 0 or 1 and a brightness between 0 and 255,
    and it is left breathing only with a positive brightness; a Notifications
    or Attention request leaves the brightness at 0 or at 255. *)
Theorem led_breathes_only_when_lit (type : LightType) (state : LightState)
    (w : World) (led : string) :
  type = BATTERY \/ type = NOTIFICATIONS \/ type = ATTENTION ->
  In led [RED_LED; GREEN_LED; BLUE_LED] ->
  exists breath brightness : Z,
    led_state led (performed (setLight type state) w) =
      (Some (VInt breath), Some (VInt brightness)) /\
    (breath = 0 \/ breath = 1) /\
    0 <= brightness <= 255 /\
    (breath = 1 -> brightness > 0) /\
    (type <> BATTERY -> brightness = 0 \/ brightness = 255).
Proof.
  intros Ht Hled.
  assert (Hn : type = NOTIFICATIONS \/ type = ATTENTION ->
               exists breath brightness : Z,
                 led_state led (performed (handleNotification state) w) =
                   (Some (VInt breath), Some (VInt brightness)) /\
                 (breath = 0 \/ breath = 1) /\
                 0 <= brightness <= 255 /\
                 (breath = 1 -> brightness > 0) /\
                 (type <> BATTERY -> brightness = 0 \/ brightness = 255)).
  { intros _.
    destruct (handleNotification_led_states state w) as (Hs & E1 & E2 & _).
    cbv zeta in Hs, E1, E2.
    assert (El : led_state led (performed (handleNotification state) w) =
                 led_state RED_LED (performed (handleNotification state) w)).
    { destruct Hled as [<- | [<- | [<- | []]]]; congruence. }
    rewrite El.
    destruct Hs as [-> | [-> | ->]];
      [exists 0, 0 | exists 0, 255 | exists 1, 255];
      repeat split; auto; lia. }
  rewrite setLight_performed, lights_find.
  destruct Ht as [-> | [-> | ->]]; [| apply Hn; auto | apply Hn; auto].
  rewrite handleBattery_performed. cbv zeta. rewrite luma_as_int.
  pose proof (rgbToBrightness_range state) as Hr.
  destruct (Z.eqb_spec (rgbToBrightness state) 0) as [E | E].
  - exists 0, 0. rewrite E.
    repeat split; try lia; auto; try congruence.
    destruct Hled as [<- | [<- | [<- | []]]]; reflexivity.
  - exists 1, (rgbToBrightness state).
    repeat split; try lia; auto; try congruence.
    destruct Hled as [<- | [<- | [<- | []]]]; reflexivity.
Qed.

Lemma led_breathes_only_when_lit_witness :
  exists breath brightness : Z,
    led_state GREEN_LED (performed (setLight ATTENTION long_flash) idle_world) =
      (Some (VInt breath), Some (VInt brightness)) /\
    (breath = 0 \/ breath = 1) /\
    0 <= brightness <= 255 /\
    (breath = 1 -> brightness > 0) /\
    (ATTENTION <> BATTERY -> brightness = 0 \/ brightness = 255).
Proof.
  apply (led_breathes_only_when_lit ATTENTION long_flash idle_world GREEN_LED).
  - right. right. reflexivity.
  - right. left. reflexivity.
Defined.

(** ** What a request is not told apart by *)

(** X15: an Attention request is served exactly like a Notifications request
    of the same state, and no handler looks at the brightness mode: two
    states that differ only there have the same outcome. *)
Theorem setLight_blind_spots :
  (forall (state : LightState) (w : World),
      setLight ATTENTION state w = setLight NOTIFICATIONS state w) /\
  (forall (type : LightType) (c : Z) (fm : Flash) (onMs offMs : Z)
          (bm1 bm2 : Brightness) (w : World),
      setLight type (mkLightState c fm onMs offMs bm1) w =
      setLight type (mkLightState c fm onMs offMs bm2) w).
Proof.
  split.
  - intros state w. unfold setLight. now rewrite !lights_find.
  - intros type c fm onMs offMs bm1 bm2 w.
    unfold setLight. rewrite lights_find.
    destruct type;
      try (match goal with |- ret _ _ = ret _ _ => reflexivity end).
    + replace (handleBacklight (mkLightState c fm onMs offMs bm1))
        with (handleBacklight (mkLightState c fm onMs offMs bm2));
        [reflexivity |].
      unfold handleBacklight, backlight_brightness, backlight_sent,
        rgbToBrightness.
      cbn [color]. reflexivity.
    + replace (handleBattery (mkLightState c fm onMs offMs bm1))
        with (handleBattery (mkLightState c fm onMs offMs bm2));
        [reflexivity |].
      unfold handleBattery, Light_rgbToBrightness, rgbToBrightness.
      cbn [color]. reflexivity.
    + replace (handleNotification (mkLightState c fm onMs offMs bm1))
        with (handleNotification (mkLightState c fm onMs offMs bm2));
        [reflexivity |].
      unfold handleNotification.
      cbn [color flashMode flashOnMs flashOffMs]. reflexivity.
    + replace (handleNotification (mkLightState c fm onMs offMs bm1))
        with (handleNotification (mkLightState c fm onMs offMs bm2));
        [reflexivity |].
      unfold handleNotification.
      cbn [color flashMode flashOnMs flashOffMs]. reflexivity.
Qed.

(** ** More on concurrent calls *)

Section ConcurrentMore.

Variable calls : nat -> LightType * LightState.
Variable sysfs : string -> option Z.

(** X16: under any schedule at most one thread is inside a handler, and that
    thread owns the mutex. *)
Theorem handler_mutual_exclusion (schedule : list nat) (i j : nat)
    (todo_i todo_j : list Write) :
  pcs (run calls sysfs schedule init) i = InHandler todo_i ->
  pcs (run calls sysfs schedule init) j = InHandler todo_j ->
  i = j /\ globalLock (run calls sysfs schedule init) = Some i.
Proof.
  intros Hi Hj.
  destruct (Inv_run calls sysfs schedule init (Inv_init calls sysfs))
    as [Hpc _].
  pose proof (Hpc i) as Pi. pose proof (Hpc j) as Pj.
  rewrite Hi in Pi. rewrite Hj in Pj.
  destruct Pi as [Li _]. destruct Pj as [Lj _].
  split; [congruence | exact Li].
Qed.

Lemma owner_in_handler_step (i : nat) (s : System) :
  (forall k, globalLock s = Some k -> exists todo, pcs s k = InHandler todo) ->
  forall k, globalLock (thread_step calls sysfs i s) = Some k ->
            exists todo, pcs (thread_step calls sysfs i s) k = InHandler todo.
Proof.
  intros H k. unfold thread_step.
  destruct (pcs s i) as [| handler | [| x todo] | status] eqn:Epc.
  - destruct (map_find (fst (calls i)) lights); cbn [globalLock pcs];
      intros Hk; destruct (H k Hk) as [todo Hpc];
      (destruct (Nat.eq_dec k i) as [-> | Hne];
       [congruence | rewrite set_pc_other by assumption; eauto]).
  - destruct (globalLock s) as [owner |] eqn:El.
    + rewrite El. exact (H k).
    + cbn [globalLock pcs]. intros Hk. injection Hk as <-.
      rewrite set_pc_same. eauto.
  - cbn [globalLock pcs]. discriminate.
  - cbn [globalLock pcs]. intros Hk.
    destruct (Nat.eq_dec k i) as [-> | Hne].
    + rewrite set_pc_same. eauto.
    + rewrite set_pc_other by assumption. exact (H k Hk).
  - exact (H k).
Qed.

Lemma owner_in_handler_run (schedule : list nat) (s : System) :
  (forall k, globalLock s = Some k -> exists todo, pcs s k = InHandler todo) ->
  forall k, globalLock (run calls sysfs schedule s) = Some k ->
            exists todo, pcs (run calls sysfs schedule s) k = InHandler todo.
Proof.
  revert s. induction schedule as [| i schedule IH]; intros s H; cbn.
  - exact H.
  - apply IH. now apply owner_in_handler_step.
Qed.

Lemma lock_held_only_in_handler_aux (schedule : list nat) (k : nat) :
  globalLock (run calls sysfs schedule init) = Some k ->
  exists todo : list Write,
    pcs (run calls sysfs schedule init) k = InHandler todo.
Proof.
  apply owner_in_handler_run. cbn. discriminate.
Qed.

(** X17: the mutex is only ever held by a thread that is inside its handler:
    a call that has returned, with either status, does not own it. *)
Theorem lock_held_only_in_handler (schedule : list nat) :
  (forall k : nat,
      globalLock (run calls sysfs schedule init) = Some k ->
      exists todo : list Write,
        pcs (run calls sysfs schedule init) k = InHandler todo) /\
  (forall (k : nat) (status : Status),
      pcs (run calls sysfs schedule init) k = Returned status ->
      globalLock (run calls sysfs schedule init) <> Some k).
Proof.
  split.
  - intros k. apply lock_held_only_in_handler_aux.
  - intros k status Hk Hl.
    destruct (lock_held_only_in_handler_aux schedule k Hl) as [todo Ht].
    congruence.
Qed.

(** X18: a thread that waits for the mutex never waits in vain: either the
    mutex is free and its own next move takes it, or the owner is inside its
    handler and the owner's next move goes on (one more write, or the
    return that frees the mutex). *)
Theorem waiting_thread_not_stuck (schedule : list nat) (i : nat)
    (handler : Handler) :
  pcs (run calls sysfs schedule init) i = AtLock handler ->
  (exists todo : list Write,
      pcs (thread_step calls sysfs i (run calls sysfs schedule init)) i =
      InHandler todo) \/
  (exists (k : nat) (todo : list Write),
      globalLock (run calls sysfs schedule init) = Some k /\
      pcs (run calls sysfs schedule init) k = InHandler todo /\
      pcs (thread_step calls sysfs k (run calls sysfs schedule init)) k <>
      InHandler todo).
Proof.
  intros Hi.
  destruct (globalLock (run calls sysfs schedule init)) as [k |] eqn:El.
  - right. destruct (lock_held_only_in_handler_aux schedule k El) as [todo Hk].
    exists k, todo. repeat split; auto.
    unfold thread_step. rewrite Hk.
    destruct todo as [| x todo]; cbn [pcs]; rewrite set_pc_same.
    + discriminate.
    + intros E. injection E as E.
      apply (f_equal (@List.length Write)) in E. cbn in E. lia.
  - left. unfold thread_step. rewrite Hi, El. cbn [pcs].
    rewrite set_pc_same. eauto.
Qed.

Lemma run_app (a b : list nat) (s : System) :
  run calls sysfs (a ++ b) s = run calls sysfs b (run calls sysfs a s).
Proof. unfold run. apply fold_left_app. Qed.

Lemma returned_stays (i n : nat) (s : System) (status : Status) :
  pcs s i = Returned status -> run calls sysfs (repeat i n) s = s.
Proof.
  intros H. induction n as [| n IH]; cbn; [reflexivity |].
  unfold thread_step. rewrite H. exact IH.
Qed.

Lemma handler_runs_through (i : nat) (todo : list Write) :
  forall s : System,
    pcs s i = InHandler todo ->
    pcs (run calls sysfs (repeat i (List.length todo)) s) i = InHandler [] /\
    events (run calls sysfs (repeat i (List.length todo)) s) =
      (events s ++ List.map (pair i) todo)%list /\
    globalLock (run calls sysfs (repeat i (List.length todo)) s) = globalLock s.
Proof.
  induction todo as [| x todo IH]; intros s Hs; cbn [List.length repeat].
  - cbn. rewrite app_nil_r. auto.
  - change (run calls sysfs (i :: repeat i (List.length todo)) s)
      with (run calls sysfs (repeat i (List.length todo))
                (thread_step calls sysfs i s)).
    assert (H1 : pcs (thread_step calls sysfs i s) i = InHandler todo /\
                 events (thread_step calls sysfs i s) =
                   (events s ++ [(i, x)])%list /\
                 globalLock (thread_step calls sysfs i s) = globalLock s).
    { unfold thread_step. rewrite Hs. cbn [pcs events globalLock].
      rewrite set_pc_same. auto. }
    destruct H1 as (P1 & E1 & L1).
    destruct (IH _ P1) as (P2 & E2 & L2).
    rewrite P2, E2, L2, E1, L1. cbn [List.map].
    rewrite <- app_assoc. auto.
Qed.

(** X19: a call that is scheduled on its own runs to its end: after three
    moves and one move per write, the thread has returned the status the
    call returns, sysfs has received exactly the writes of the call, in
    order, and the mutex is free again. *)
Theorem lone_call_completes :
  forall i : nat,
    let s := run calls sysfs
                 (repeat i (3 + List.length (call_writes calls sysfs i))) init in
    pcs s i =
      Returned (fst (setLight (fst (calls i)) (snd (calls i))
                              (mkWorld sysfs [] []))) /\
    events s = List.map (pair i) (call_writes calls sysfs i) /\
    globalLock s = None.
Proof.
  intros i. cbv zeta.
  destruct (map_find (fst (calls i)) lights) as [handler |] eqn:Ef.
  - rewrite (call_writes_found calls sysfs i handler Ef).
    assert (Est : fst (setLight (fst (calls i)) (snd (calls i))
                                (mkWorld sysfs [] [])) = SUCCESS).
    { unfold setLight. rewrite Ef. unfold bind, ret.
      destruct (handler (snd (calls i)) (mkWorld sysfs [] [])). reflexivity. }
    rewrite Est.
    replace (3 + List.length (handler_writes calls sysfs handler i))%nat
      with (2 + (List.length (handler_writes calls sysfs handler i) + 1))%nat
      by lia.
    rewrite !repeat_app, !run_app.
    set (s2 := run calls sysfs (repeat i 2) init).
    assert (H2 : pcs s2 i = InHandler (handler_writes calls sysfs handler i) /\
                 events s2 = [] /\ globalLock s2 = Some i).
    { unfold s2.
      change (run calls sysfs (repeat i 2) init)
        with (thread_step calls sysfs i (thread_step calls sysfs i init)).
      assert (H1 : pcs (thread_step calls sysfs i init) i = AtLock handler /\
                   events (thread_step calls sysfs i init) = [] /\
                   globalLock (thread_step calls sysfs i init) = None).
      { unfold thread_step. cbn [init pcs]. rewrite Ef.
        cbn [pcs events globalLock]. rewrite set_pc_same. auto. }
      destruct H1 as (P1 & E1 & L1).
      generalize dependent (thread_step calls sysfs i init).
      intros s1 P1 E1 L1.
      unfold thread_step. rewrite P1, L1.
      cbn [pcs events globalLock]. rewrite set_pc_same. auto. }
    destruct H2 as (P2 & E2 & L2).
    destruct (handler_runs_through i _ s2 P2) as (P3 & E3 & L3).
    cbn [repeat run fold_left]. unfold thread_step. rewrite P3.
    cbn [pcs events globalLock]. rewrite set_pc_same, E3, E2. auto.
  - rewrite (call_writes_missing calls sysfs i Ef).
    assert (Est : fst (setLight (fst (calls i)) (snd (calls i))
                                (mkWorld sysfs [] [])) = LIGHT_NOT_SUPPORTED).
    { unfold setLight. now rewrite Ef. }
    rewrite Est. cbn [List.length Nat.add repeat].
    change (run calls sysfs (i :: i :: [i]) init)
      with (run calls sysfs (repeat i 2) (thread_step calls sysfs i init)).
    assert (H1 : pcs (thread_step calls sysfs i init) i =
                 Returned LIGHT_NOT_SUPPORTED).
    { unfold thread_step. cbn [init pcs]. rewrite Ef. cbn [pcs].
      apply set_pc_same. }
    rewrite (returned_stays i 2 _ _ H1).
    split; [exact H1 |].
    unfold thread_step. cbn [init pcs]. rewrite Ef. auto.
Qed.

End ConcurrentMore.

Lemma handler_mutual_exclusion_witness :
  0%nat = 0%nat /\
  globalLock (run two_calls (fun _ => None) [0; 0]%nat init) = Some 0%nat.
Proof.
  eapply (handler_mutual_exclusion two_calls (fun _ => None) [0; 0]%nat
            0%nat 0%nat); reflexivity.
Defined.

Lemma lock_held_only_in_handler_witness :
  exists todo : list Write,
    pcs (run two_calls (fun _ => None) [0; 0]%nat init) 0%nat = InHandler todo.
Proof.
  apply (proj1 (lock_held_only_in_handler two_calls (fun _ => None)
                  [0; 0]%nat) 0%nat).
  reflexivity.
Defined.

Lemma waiting_thread_not_stuck_witness :
  (exists todo : list Write,
      pcs (thread_step two_calls (fun _ => None) 1
             (run two_calls (fun _ => None) [1; 0; 0; 1]%nat init)) 1%nat =
      InHandler todo) \/
  (exists (k : nat) (todo : list Write),
      globalLock (run two_calls (fun _ => None) [1; 0; 0; 1]%nat init) = Some k /\
      pcs (run two_calls (fun _ => None) [1; 0; 0; 1]%nat init) k =
        InHandler todo /\
      pcs (thread_step two_calls (fun _ => None) k
             (run two_calls (fun _ => None) [1; 0; 0; 1]%nat init)) k <>
      InHandler todo).
Proof.
  apply (waiting_thread_not_stuck two_calls (fun _ => None)
           [1; 0; 0; 1]%nat 1%nat handleNotification).
  reflexivity.
Defined.
